(** * MiniSoccer member dashboard: store, broadcast hub and moderation

    A shallow embedding of the server core of the repository:

    - [shared/schema.ts]  (second half: [server/storage.ts]) — the records
      and the in-memory store [MemStorage];
    - [server/discord-bot.ts] — [DiscordBotService]: snapshot sync, the
      message filter, the web-socket registry and the kick / ban actions;
    - [registerRoutes] (the routes module of the server) — the
      [PUT /api/members/:id/cash] handler.

    Conventions of the embedding.
    - A JS [Date] is the integer number of milliseconds since the epoch
      ([Z]); a nullable column is an [option].  Every call of a store
      method reads the clock once: the reading is the explicit argument
      [now].  [randomUUID()] is the explicit argument [uuid].
    - A JS [number] holding a count or the [integer] column [cash] is a [Z].
    - A [Map<string, _>] is a [gmap string _]; the iteration order of the
      map is not part of the model.  A [Set<WebSocket>] is kept as a list in
      insertion order because [forEach] visits it in that order.
    - Strings are [string]s of 8-bit characters; [toLowerCase] folds the
      letters A–Z.
    - Calls into discord.js and into the [ws] library are not part of the
      repository: their outcome (return or throw) is an argument of the
      function that makes the call.
    - The service and the routes are written against [IStorage].
      [MemStorage] is the implementation whose behaviour the repository
      defines, and the statements that depend on what the store does are
      about it; [DatabaseStorage] hands the same requests to PostgreSQL. *)

From Stdlib Require Import ZArith String Ascii List Bool Lia.
From stdpp Require Import base option gmap strings list fin_maps.
From stdpp Require Import sorting.

Local Open Scope string_scope.
Local Open Scope Z_scope.

(* ===================================================================== *)
(** * Records of [shared/schema.ts] *)
(* ===================================================================== *)

(** [DiscordMember = typeof discordMembers.$inferSelect]. *)
Record DiscordMember := mkDiscordMember {
  m_id : string;
  m_username : string;
  m_displayName : string;
  m_discriminator : option string;
  m_avatar : option string;
  m_status : string;
  m_role : string;
  m_roles : list string;
  m_cash : Z;
  m_joinedServerAt : option Z;
  m_joinedDiscordAt : option Z;
  m_joinedAt : option Z;
  m_lastSeen : option Z
}.

(** [InsertMember]: [joinedAt] and [lastSeen] are omitted; every column
    that is nullable or has a default is optional. *)
Record InsertMember := mkInsertMember {
  i_id : string;
  i_username : string;
  i_displayName : string;
  i_discriminator : option string;
  i_avatar : option string;
  i_status : option string;
  i_role : option string;
  i_roles : option (list string);
  i_cash : option Z;
  i_joinedServerAt : option Z;
  i_joinedDiscordAt : option Z
}.

(** [Partial<DiscordMember>]: [Some v] when the key is present. *)
Record PartialMember := mkPartialMember {
  u_id : option string;
  u_username : option string;
  u_displayName : option string;
  u_discriminator : option (option string);
  u_avatar : option (option string);
  u_status : option string;
  u_role : option string;
  u_roles : option (list string);
  u_cash : option Z;
  u_joinedServerAt : option (option Z);
  u_joinedDiscordAt : option (option Z);
  u_joinedAt : option (option Z);
  u_lastSeen : option (option Z)
}.

Record KickLog := mkKickLog {
  k_id : string;
  k_memberId : string;
  k_kickedBy : string;
  k_reason : option string;
  k_kickedAt : option Z
}.

Record InsertKickLog := mkInsertKickLog {
  ik_memberId : string;
  ik_kickedBy : string;
  ik_reason : option string
}.

Record ServerStats := mkServerStats {
  st_id : string;
  totalMembers : Z;
  onlineMembers : Z;
  activeToday : Z;
  recentKicks : Z;
  lastUpdated : option Z
}.

Record BlockedWord := mkBlockedWord {
  b_id : string;
  b_word : string;
  b_createdAt : option Z;
  b_createdBy : string
}.

Record InsertBlockedWord := mkInsertBlockedWord {
  ib_word : string;
  ib_createdBy : string
}.

(* ===================================================================== *)
(** * [server/storage.ts]: the interface *)
(* ===================================================================== *)

(** How a call ends: it returns a value or it throws. *)
Inductive Completion (A : Type) :=
| Returns (a : A)
| Throws.
Arguments Returns {A} a.
Arguments Throws {A}.

(** [Partial<InsertStats>] *)
Record PartialStats := mkPartialStats {
  ps_totalMembers : option Z;
  ps_onlineMembers : option Z;
  ps_activeToday : option Z;
  ps_recentKicks : option Z
}.

(** [interface IStorage], for a store whose state has type [St].  A method
    takes the state and ends by returning or throwing, with the state it
    leaves.  The methods that read the clock take the reading [now];
    those that draw an identifier take it as [uuid].  [getRecentKicks], a
    sorted read that nothing below calls, is left out. *)
Class IStorage (St : Type) := {
  getAllMembers : St → Completion (list DiscordMember) * St;
  getMember : string → St → Completion (option DiscordMember) * St;
  createMember : InsertMember → Z → St → Completion DiscordMember * St;
  updateMember :
    string → PartialMember → Z → St → Completion (option DiscordMember) * St;
  deleteMember : string → Z → St → Completion bool * St;
  updateMemberCash :
    string → Z → Z → St → Completion (option DiscordMember) * St;
  addMemberCash :
    string → Z → Z → St → Completion (option DiscordMember) * St;
  getTotalCash : St → Completion Z * St;
  addMemberRole :
    string → string → Z → St → Completion (option DiscordMember) * St;
  removeMemberRole :
    string → string → Z → St → Completion (option DiscordMember) * St;
  createKickLog : InsertKickLog → string → Z → St → Completion KickLog * St;
  getStats : St → Completion ServerStats * St;
  updateStats : PartialStats → Z → St → Completion ServerStats * St;
  getAllBlockedWords : St → Completion (list BlockedWord) * St;
  addBlockedWord :
    InsertBlockedWord → string → Z → St → Completion BlockedWord * St;
  removeBlockedWord : string → St → Completion bool * St;
  removeAllBlockedWords : St → Completion bool * St;
  removeAllMembers : Z → St → Completion bool * St
}.

(* ===================================================================== *)
(** * JS helpers *)
(* ===================================================================== *)

(** [s || d] on an optional string: [undefined], [null] and the empty
    string are falsy. *)
Definition or_string (o : option string) (d : string) : string :=
  match o with
  | Some s => if String.eqb s "" then d else s
  | None => d
  end.

(** [s || null] on an optional string. *)
Definition or_null (o : option string) : option string :=
  match o with
  | Some s => if String.eqb s "" then None else Some s
  | None => None
  end.

(** [new Date(); setDate(getDate() - 1)]: the instant one day earlier
    (24 hours of 3 600 000 ms; no daylight-saving shift in the server's
    time zone). *)
Definition dayAgo (now : Z) : Z := now - 86400000.

(** [d && d > dayAgo] for a nullable timestamp. *)
Definition after_dayAgo (now : Z) (d : option Z) : bool :=
  match d with
  | Some t => dayAgo now <? t
  | None => false
  end.

(** [{ ...member, ...updates }]. *)
Definition spread (m : DiscordMember) (u : PartialMember) : DiscordMember :=
  {| m_id := default (m_id m) (u_id u);
     m_username := default (m_username m) (u_username u);
     m_displayName := default (m_displayName m) (u_displayName u);
     m_discriminator := default (m_discriminator m) (u_discriminator u);
     m_avatar := default (m_avatar m) (u_avatar u);
     m_status := default (m_status m) (u_status u);
     m_role := default (m_role m) (u_role u);
     m_roles := default (m_roles m) (u_roles u);
     m_cash := default (m_cash m) (u_cash u);
     m_joinedServerAt := default (m_joinedServerAt m) (u_joinedServerAt u);
     m_joinedDiscordAt := default (m_joinedDiscordAt m) (u_joinedDiscordAt u);
     m_joinedAt := default (m_joinedAt m) (u_joinedAt u);
     m_lastSeen := default (m_lastSeen m) (u_lastSeen u) |}.

(** [{ ...member, lastSeen: d }], [{ ...member, cash: c }] and
    [{ ...member, roles }]. *)
Definition with_lastSeen (m : DiscordMember) (d : option Z) : DiscordMember :=
  {| m_id := m_id m; m_username := m_username m;
     m_displayName := m_displayName m; m_discriminator := m_discriminator m;
     m_avatar := m_avatar m; m_status := m_status m; m_role := m_role m;
     m_roles := m_roles m; m_cash := m_cash m;
     m_joinedServerAt := m_joinedServerAt m;
     m_joinedDiscordAt := m_joinedDiscordAt m;
     m_joinedAt := m_joinedAt m; m_lastSeen := d |}.

Definition with_cash (m : DiscordMember) (c : Z) : DiscordMember :=
  {| m_id := m_id m; m_username := m_username m;
     m_displayName := m_displayName m; m_discriminator := m_discriminator m;
     m_avatar := m_avatar m; m_status := m_status m; m_role := m_role m;
     m_roles := m_roles m; m_cash := c;
     m_joinedServerAt := m_joinedServerAt m;
     m_joinedDiscordAt := m_joinedDiscordAt m;
     m_joinedAt := m_joinedAt m; m_lastSeen := m_lastSeen m |}.

Definition with_roles (m : DiscordMember) (r : list string) : DiscordMember :=
  {| m_id := m_id m; m_username := m_username m;
     m_displayName := m_displayName m; m_discriminator := m_discriminator m;
     m_avatar := m_avatar m; m_status := m_status m; m_role := m_role m;
     m_roles := r; m_cash := m_cash m;
     m_joinedServerAt := m_joinedServerAt m;
     m_joinedDiscordAt := m_joinedDiscordAt m;
     m_joinedAt := m_joinedAt m; m_lastSeen := m_lastSeen m |}.

(** [roles.includes(roleId)] *)
Definition includes_role (roles : list string) (roleId : string) : bool :=
  existsb (String.eqb roleId) roles.

(* ===================================================================== *)
(** * [MemStorage] *)
(* ===================================================================== *)

Record MemStorage := mkMemStorage {
  members : gmap string DiscordMember;
  kickLogs : gmap string KickLog;
  blockedWords : gmap string BlockedWord;
  stats : ServerStats
}.

(** [Array.from(map.values())] *)
Definition values {A} (m : gmap string A) : list A := (map_to_list m).*2.

Definition is_online (m : DiscordMember) : bool := String.eqb (m_status m) "online".

Definition seen_today (now : Z) (m : DiscordMember) : bool :=
  after_dayAgo now (m_lastSeen m).

Module MemStorage.

(** The constructor; [now] is the reading of [new Date()]. *)
Definition constructor (now : Z) : MemStorage :=
  {| members := ∅; kickLogs := ∅; blockedWords := ∅;
     stats := {| st_id := "main"; totalMembers := 0; onlineMembers := 0;
                 activeToday := 0; recentKicks := 0;
                 lastUpdated := Some now |} |}.

Definition getAllMembers (s : MemStorage) : list DiscordMember :=
  values (members s).

Definition getMember (id : string) (s : MemStorage) : option DiscordMember :=
  members s !! id.

(** [updateMemberCount]: assigns three fields of [this.stats] in place. *)
Definition updateMemberCount (now : Z) (s : MemStorage) : MemStorage :=
  let ms := values (members s) in
  {| members := members s; kickLogs := kickLogs s;
     blockedWords := blockedWords s;
     stats :=
       {| st_id := st_id (stats s);
          totalMembers := Z.of_nat (length ms);
          onlineMembers := Z.of_nat (length (List.filter is_online ms));
          activeToday := Z.of_nat (length (List.filter (seen_today now) ms));
          recentKicks := recentKicks (stats s);
          lastUpdated := lastUpdated (stats s) |} |}.

Definition set_members (ms : gmap string DiscordMember) (s : MemStorage)
  : MemStorage :=
  {| members := ms; kickLogs := kickLogs s;
     blockedWords := blockedWords s; stats := stats s |}.

(** The record built by [createMember]. *)
Definition new_member (i : InsertMember) (now : Z) : DiscordMember :=
  {| m_id := i_id i;
     m_username := i_username i;
     m_displayName := i_displayName i;
     m_discriminator := or_null (i_discriminator i);
     m_avatar := or_null (i_avatar i);
     m_role := or_string (i_role i) "Member";
     m_status := or_string (i_status i) "offline";
     m_roles := default [] (i_roles i);
     m_cash := default 0 (i_cash i);
     m_joinedServerAt := Some (default now (i_joinedServerAt i));
     m_joinedDiscordAt := i_joinedDiscordAt i;
     m_joinedAt := Some now;
     m_lastSeen := Some now |}.

Definition createMember (insertMember : InsertMember) (now : Z)
    (s : MemStorage) : DiscordMember * MemStorage :=
  let member := new_member insertMember now in
  (member,
   updateMemberCount now (set_members (<[m_id member := member]> (members s)) s)).

Definition updateMember (id : string) (updates : PartialMember) (now : Z)
    (s : MemStorage) : option DiscordMember * MemStorage :=
  match members s !! id with
  | None => (None, s)
  | Some member =>
      let updatedMember := with_lastSeen (spread member updates) (Some now) in
      (Some updatedMember,
       updateMemberCount now (set_members (<[id := updatedMember]> (members s)) s))
  end.

Definition deleteMember (id : string) (now : Z) (s : MemStorage)
  : bool * MemStorage :=
  match members s !! id with
  | Some _ => (true, updateMemberCount now (set_members (delete id (members s)) s))
  | None => (false, s)
  end.

Definition createKickLog (insertLog : InsertKickLog) (uuid : string) (now : Z)
    (s : MemStorage) : KickLog * MemStorage :=
  let log := {| k_id := uuid;
                k_memberId := ik_memberId insertLog;
                k_kickedBy := ik_kickedBy insertLog;
                k_reason := or_null (ik_reason insertLog);
                k_kickedAt := Some now |} in
  let logs := <[k_id log := log]> (kickLogs s) in
  let recent :=
    Z.of_nat (length (List.filter (fun l => after_dayAgo now (k_kickedAt l))
                                  (values logs))) in
  (log,
   {| members := members s; kickLogs := logs; blockedWords := blockedWords s;
      stats := {| st_id := st_id (stats s);
                  totalMembers := totalMembers (stats s);
                  onlineMembers := onlineMembers (stats s);
                  activeToday := activeToday (stats s);
                  recentKicks := recent;
                  lastUpdated := lastUpdated (stats s) |} |}).

Definition getStats (s : MemStorage) : ServerStats := stats s.

Definition updateMemberCash (id : string) (amount : Z) (now : Z)
    (s : MemStorage) : option DiscordMember * MemStorage :=
  match members s !! id with
  | None => (None, s)
  | Some member =>
      let updatedMember := with_lastSeen (with_cash member amount) (Some now) in
      (Some updatedMember, set_members (<[id := updatedMember]> (members s)) s)
  end.

Definition addMemberCash (id : string) (amount : Z) (now : Z)
    (s : MemStorage) : option DiscordMember * MemStorage :=
  match members s !! id with
  | None => (None, s)
  | Some member =>
      let updatedMember :=
        with_lastSeen (with_cash member (m_cash member + amount)) (Some now) in
      (Some updatedMember, set_members (<[id := updatedMember]> (members s)) s)
  end.

Definition getTotalCash (s : MemStorage) : Z :=
  fold_left (fun total member => total + m_cash member) (values (members s)) 0.

Definition addMemberRole (id roleId : string) (now : Z) (s : MemStorage)
  : option DiscordMember * MemStorage :=
  match members s !! id with
  | None => (None, s)
  | Some member =>
      let roles := if includes_role (m_roles member) roleId
                   then m_roles member
                   else (m_roles member ++ [roleId])%list in
      let updatedMember := with_lastSeen (with_roles member roles) (Some now) in
      (Some updatedMember, set_members (<[id := updatedMember]> (members s)) s)
  end.

Definition removeMemberRole (id roleId : string) (now : Z) (s : MemStorage)
  : option DiscordMember * MemStorage :=
  match members s !! id with
  | None => (None, s)
  | Some member =>
      let roles := List.filter (fun r => negb (String.eqb r roleId)) (m_roles member) in
      let updatedMember := with_lastSeen (with_roles member roles) (Some now) in
      (Some updatedMember, set_members (<[id := updatedMember]> (members s)) s)
  end.

Definition getAllBlockedWords (s : MemStorage) : list BlockedWord :=
  values (blockedWords s).

Definition addBlockedWord (insertWord : InsertBlockedWord) (uuid : string)
    (now : Z) (s : MemStorage) : BlockedWord * MemStorage :=
  let blockedWord := {| b_id := uuid; b_word := ib_word insertWord;
                        b_createdAt := Some now;
                        b_createdBy := ib_createdBy insertWord |} in
  (blockedWord,
   {| members := members s; kickLogs := kickLogs s;
      blockedWords := <[b_id blockedWord := blockedWord]> (blockedWords s);
      stats := stats s |}).

Definition removeAllMembers (now : Z) (s : MemStorage) : bool * MemStorage :=
  (true, updateMemberCount now (set_members ∅ s)).

Definition updateStats (updates : PartialStats) (now : Z) (s : MemStorage)
  : ServerStats * MemStorage :=
  let stats' :=
    {| st_id := st_id (stats s);
       totalMembers := default (totalMembers (stats s)) (ps_totalMembers updates);
       onlineMembers := default (onlineMembers (stats s)) (ps_onlineMembers updates);
       activeToday := default (activeToday (stats s)) (ps_activeToday updates);
       recentKicks := default (recentKicks (stats s)) (ps_recentKicks updates);
       lastUpdated := Some now |} in
  (stats',
   {| members := members s; kickLogs := kickLogs s;
      blockedWords := blockedWords s; stats := stats' |}).

Definition removeBlockedWord (id : string) (s : MemStorage)
  : bool * MemStorage :=
  (bool_decide (is_Some (blockedWords s !! id)),
   {| members := members s; kickLogs := kickLogs s;
      blockedWords := delete id (blockedWords s); stats := stats s |}).

Definition removeAllBlockedWords (s : MemStorage) : bool * MemStorage :=
  (true,
   {| members := members s; kickLogs := kickLogs s;
      blockedWords := ∅; stats := stats s |}).

End MemStorage.

(** A method that cannot throw. *)
Definition returns {St A} (f : St → A * St) : St → Completion A * St :=
  fun s => let (a, s') := f s in (Returns a, s').

(** [class MemStorage implements IStorage] *)
#[global] Instance MemStorage_IStorage : IStorage MemStorage := {|
  getAllMembers := returns (fun s => (MemStorage.getAllMembers s, s));
  getMember id := returns (fun s => (MemStorage.getMember id s, s));
  createMember i now := returns (MemStorage.createMember i now);
  updateMember id u now := returns (MemStorage.updateMember id u now);
  deleteMember id now := returns (MemStorage.deleteMember id now);
  updateMemberCash id a now := returns (MemStorage.updateMemberCash id a now);
  addMemberCash id a now := returns (MemStorage.addMemberCash id a now);
  getTotalCash := returns (fun s => (MemStorage.getTotalCash s, s));
  addMemberRole id r now := returns (MemStorage.addMemberRole id r now);
  removeMemberRole id r now := returns (MemStorage.removeMemberRole id r now);
  createKickLog l uuid now := returns (MemStorage.createKickLog l uuid now);
  getStats := returns (fun s => (MemStorage.getStats s, s));
  updateStats u now := returns (MemStorage.updateStats u now);
  getAllBlockedWords := returns (fun s => (MemStorage.getAllBlockedWords s, s));
  addBlockedWord w uuid now := returns (MemStorage.addBlockedWord w uuid now);
  removeBlockedWord id := returns (MemStorage.removeBlockedWord id);
  removeAllBlockedWords := returns MemStorage.removeAllBlockedWords;
  removeAllMembers now := returns (MemStorage.removeAllMembers now)
|}.

(* ===================================================================== *)
(** * [registerRoutes]: [PUT /api/members/:id/cash] *)
(* ===================================================================== *)

(** The value found under a key of a parsed JSON request body. *)
Inductive JsValue :=
| JUndefined
| JNull
| JBool (b : bool)
| JNumber (n : Z)
| JString (s : string).

Inductive ResBody :=
| BodyMember (m : DiscordMember)
| BodyError (error : string).

(** [updateCashSchema = z.object({ amount: z.number().min(0) })];
    [safeParse] of a body whose [amount] key holds [amount]. *)
Definition updateCashSchema (amount : JsValue) : option Z :=
  match amount with
  | JNumber n => if 0 <=? n then Some n else None
  | _ => None
  end.

Section Routes.
Context {St : Type} `{IStorage St}.

(** The handler, for a request arriving at time [now]; [s] is the state of
    [storage].  The result is the HTTP status with the JSON body, and the
    state of the store. *)
Definition put_member_cash (id : string) (amount : JsValue) (now : Z)
    (s : St) : (Z * ResBody) * St :=
  match updateCashSchema amount with
  | None => ((400, BodyError "Invalid request body"), s)
  | Some amount =>
      match updateMemberCash id amount now s with
      | (Returns (Some updatedMember), s') =>
          ((200, BodyMember updatedMember), s')
      | (Returns None, s') => ((404, BodyError "Member not found"), s')
      | (Throws, s') => ((500, BodyError "Internal server error"), s')
      end
  end.

End Routes.

(* ===================================================================== *)
(** * Strings: [toLowerCase] and [includes] *)
(* ===================================================================== *)

Definition lower_ascii (c : ascii) : ascii :=
  let n := N_of_ascii c in
  if ((65 <=? n) && (n <=? 90))%N then ascii_of_N (n + 32) else c.

Fixpoint toLowerCase (s : string) : string :=
  match s with
  | EmptyString => EmptyString
  | String c r => String (lower_ascii c) (toLowerCase r)
  end.

(** [s.includes(t)]: [t] starts at some position of [s]. *)
Fixpoint includes (s t : string) : bool :=
  String.prefix t s ||
  match s with
  | EmptyString => false
  | String _ r => includes r t
  end.

(** The match rule in the words of the specification: some blocked term,
    case-folded, occurs as a contiguous substring of the case-folded
    content. *)
Definition substring_of (t s : string) : Prop :=
  ∃ pre post : string, s = pre +:+ t +:+ post.

Definition spec_blocked (words : list BlockedWord) (content : string) : Prop :=
  ∃ w, In w words ∧ substring_of (toLowerCase (b_word w)) (toLowerCase content).

(** The test computed at the head of [handleMessageFilter]. *)
Definition containsBlockedWord (blockedWords : list BlockedWord)
    (content : string) : bool :=
  let messageContent := toLowerCase content in
  existsb (fun blockedWord => includes messageContent (toLowerCase (b_word blockedWord)))
          blockedWords.

(* ===================================================================== *)
(** * The state of the service *)
(* ===================================================================== *)

(** The [data] object of a broadcast envelope. *)
Inductive Payload :=
| DataInsertMember (i : InsertMember)
| DataMember (m : DiscordMember)
| DataId (id : string)
| DataIdReason (id : string) (reason : option string)
| DataFiltered (userId username content : string) (timestamp : Z).

(** [{ type, data }]; [JSON.stringify] of it is identified with it. *)
Record Envelope := mkEnvelope { e_type : string; e_data : Payload }.

(** A web-socket client as the hub sees it: its [readyState]
    (0 CONNECTING, 1 OPEN, 2 CLOSING, 3 CLOSED), whether its [send] throws,
    and the messages [send] has handed to it, oldest first. *)
Record WebSocket := mkWebSocket {
  ws_id : nat;
  readyState : Z;
  send_throws : bool;
  received : list Envelope
}.

Definition OPEN : Z := 1.

(** Requests made to the Discord API, in the order they are made. *)
Inductive DiscordCall :=
| CallFetchAll
| CallFetch (memberId : string)
| CallInviteCreate (maxAge maxUses : Z)
| CallSend (memberId text : string)
| CallKick (memberId : string) (reason : option string)
| CallBan (memberId : string) (reason : option string)
| CallMessageDelete (content : string)
| CallChannelSend (text : string).

(** The state the service works on: the state [storage] of the store, the
    registered sockets and the requests made to Discord so far. *)
Record World (St : Type) := mkWorld {
  storage : St;
  wsClients : list WebSocket;
  discord : list DiscordCall
}.
Arguments mkWorld {St}.
Arguments storage {St}.
Arguments wsClients {St}.
Arguments discord {St}.

(** Computations of the service: they read and change the world and end
    by returning or throwing. *)
Definition M (St A : Type) : Type := World St → Completion A * World St.

Definition ret {St A} (a : A) : M St A := fun w => (Returns a, w).

Definition bind {St A B} (c : M St A) (k : A → M St B) : M St B :=
  fun w => match c w with
           | (Returns a, w') => k a w'
           | (Throws, w') => (Throws, w')
           end.

(** [try { c } catch (e) { h }] *)
Definition try_catch {St A} (c : M St A) (h : M St A) : M St A :=
  fun w => match c w with
           | (Returns a, w') => (Returns a, w')
           | (Throws, w') => h w'
           end.

#[global] Instance M_ret St : MRet (M St) := @ret St.
#[global] Instance M_bind St : MBind (M St) := λ A B k c, bind c k.

(** [await storage.method(...)] *)
Definition on_storage {St A} (method : St → Completion A * St) : M St A :=
  fun w => let (r, s') := method (storage w) in
           (r, {| storage := s'; wsClients := wsClients w;
                  discord := discord w |}).

(** A request to Discord with the given outcome. *)
Definition call {St A} (c : DiscordCall) (outcome : Completion A) : M St A :=
  fun w => (outcome, {| storage := storage w; wsClients := wsClients w;
                        discord := (discord w ++ [c])%list |}).

(* ===================================================================== *)
(** * The web-socket registry of [DiscordBotService] *)
(* ===================================================================== *)

Definition deliver (message : Envelope) (ws : WebSocket) : WebSocket :=
  {| ws_id := ws_id ws; readyState := readyState ws;
     send_throws := send_throws ws;
     received := (received ws ++ [message])%list |}.

(** [this.wsClients.add(ws)]: a set keeps one entry per socket. *)
Definition wsClients_add (ws : WebSocket) (l : list WebSocket) : list WebSocket :=
  if existsb (fun x => Nat.eqb (ws_id x) (ws_id ws)) l then l
  else (l ++ [ws])%list.

(** [this.wsClients.delete(ws)] *)
Definition wsClients_delete (id : nat) (l : list WebSocket) : list WebSocket :=
  List.filter (fun x => negb (Nat.eqb (ws_id x) id)) l.

Definition addWebSocketClient {St} (ws : WebSocket) : M St unit :=
  fun w => (Returns tt, {| storage := storage w;
                           wsClients := wsClients_add ws (wsClients w);
                           discord := discord w |}).

(** The listener installed by [ws.on('close', ...)]. *)
Definition on_close {St} (id : nat) : M St unit :=
  fun w => (Returns tt, {| storage := storage w;
                           wsClients := wsClients_delete id (wsClients w);
                           discord := discord w |}).

(** [this.wsClients.forEach(ws => { if (ws.readyState === OPEN)
    ws.send(message) })]: an exception leaves the loop. *)
Fixpoint forEach_send (message : Envelope) (l : list WebSocket)
  : Completion unit * list WebSocket :=
  match l with
  | [] => (Returns tt, [])
  | ws :: rest =>
      if readyState ws =? OPEN then
        if send_throws ws then (Throws, ws :: rest)
        else let (r, rest') := forEach_send message rest in
             (r, deliver message ws :: rest')
      else let (r, rest') := forEach_send message rest in
           (r, ws :: rest')
  end.

Definition broadcastUpdate {St} (type : string) (data : Payload) : M St unit :=
  fun w =>
    let message := {| e_type := type; e_data := data |} in
    let (r, l) := forEach_send message (wsClients w) in
    (r, {| storage := storage w; wsClients := l; discord := discord w |}).

(* ===================================================================== *)
(** * [DiscordBotService]: what it reads from discord.js *)
(* ===================================================================== *)

Record User := mkUser {
  usr_username : string;
  usr_discriminator : string;
  usr_avatar : option string;
  usr_bot : bool;
  usr_createdAt : Z
}.

(** A guild member as the service reads it: [presence_status] is
    [member.presence?.status]; [has_Administrator] and [has_KickMembers]
    are the answers of [member.permissions?.has(...)]; [roles_cache] lists
    the ids of [member.roles.cache]; [everyone] is
    [member.guild.roles.everyone.id]. *)
Record GuildMember := mkGuildMember {
  gm_id : string;
  gm_user : User;
  gm_displayName : string;
  gm_presence_status : option string;
  gm_has_Administrator : bool;
  gm_has_KickMembers : bool;
  gm_roles_cache : list string;
  gm_everyone : string;
  gm_joinedAt : option Z
}.

Record Guild := mkGuild { g_name : string }.

Definition getMemberRole (member : GuildMember) : string :=
  if gm_has_Administrator member then "Admin"
  else if gm_has_KickMembers member then "Moderator"
  else "Member".

Definition mapPresenceStatus (status : option string) : string :=
  match status with
  | Some s =>
      if String.eqb s "online" then "online"
      else if String.eqb s "idle" then "idle"
      else if String.eqb s "dnd" then "dnd"
      else "offline"
  | None => "offline"
  end.

(** [a || b] on strings. *)
Definition or_else (a b : string) : string :=
  if String.eqb a "" then b else a.

(** The object literal [discordMember] built in [syncMembers]. *)
Definition sync_record (member : GuildMember) : InsertMember :=
  {| i_id := gm_id member;
     i_username := usr_username (gm_user member);
     i_displayName := or_else (gm_displayName member) (usr_username (gm_user member));
     i_discriminator := Some (usr_discriminator (gm_user member));
     i_avatar := usr_avatar (gm_user member);
     i_status := Some (mapPresenceStatus (gm_presence_status member));
     i_role := Some (getMemberRole member);
     i_roles := Some (List.filter (fun id => negb (String.eqb id (gm_everyone member)))
                                  (gm_roles_cache member));
     i_cash := None;
     i_joinedServerAt := gm_joinedAt member;
     i_joinedDiscordAt := Some (usr_createdAt (gm_user member)) |}.

(** The object literal [discordMember] built on [GuildMemberAdd]. *)
Definition join_record (member : GuildMember) : InsertMember :=
  {| i_id := gm_id member;
     i_username := usr_username (gm_user member);
     i_displayName := or_else (gm_displayName member) (usr_username (gm_user member));
     i_discriminator := Some (usr_discriminator (gm_user member));
     i_avatar := usr_avatar (gm_user member);
     i_status := Some "offline";
     i_role := Some (getMemberRole member);
     i_roles := None;
     i_cash := None;
     i_joinedServerAt := None;
     i_joinedDiscordAt := None |}.

Section DiscordBotService.
Context {St : Type} `{IStorage St}.

(** The body of the [for ... of members.entries()] loop of [syncMembers];
    [clk i] is the clock read by the store during the [i]-th iteration. *)
Fixpoint sync_loop (clk : nat → Z) (i : nat) (l : list GuildMember) : M St unit :=
  match l with
  | [] => ret tt
  | member :: rest =>
      if usr_bot (gm_user member) then sync_loop clk (S i) rest
      else
        on_storage (createMember (sync_record member) (clk i));;
        sync_loop clk (S i) rest
  end.

(** [syncMembers]: [guild] is [this.client.guilds.cache.first()] and
    [fetched] the outcome of [guild.members.fetch()]. *)
Definition syncMembers (guild : option Guild)
    (fetched : Completion (list GuildMember)) (clk : nat → Z) : M St unit :=
  try_catch
    (match guild with
     | None => ret tt
     | Some _ =>
         members ← call CallFetchAll fetched;
         sync_loop clk 0 members
     end)
    (ret tt).

(* --------------------------------------------------------------------- *)
(** ** Gateway event handlers *)

Definition status_update (status : string) : PartialMember :=
  {| u_id := None; u_username := None; u_displayName := None;
     u_discriminator := None; u_avatar := None; u_status := Some status;
     u_role := None; u_roles := None; u_cash := None;
     u_joinedServerAt := None; u_joinedDiscordAt := None;
     u_joinedAt := None; u_lastSeen := None |}.

Definition on_GuildMemberAdd (member : GuildMember) (now : Z) : M St unit :=
  let discordMember := join_record member in
  on_storage (createMember discordMember now);;
  broadcastUpdate "memberJoined" (DataInsertMember discordMember).

Definition on_GuildMemberRemove (memberId : string) (now : Z) : M St unit :=
  on_storage (deleteMember memberId now);;
  broadcastUpdate "memberLeft" (DataId memberId).


(* --------------------------------------------------------------------- *)
(** ** The message filter *)

Record Message := mkMessage {
  msg_content : string;
  msg_author_id : string;
  msg_author_username : string;
  msg_author_bot : bool
}.

(** Outcomes of [message.delete()] and of [message.channel.send(...)], and
    the clock read for the envelope. *)
Record FilterEnv := mkFilterEnv {
  f_delete : Completion unit;
  f_channel_send : Completion unit;
  f_now : Z
}.

Definition filter_notice (message : Message) : string :=
  "<@" +:+ msg_author_id message +:+
  ">, your message was removed because it contained a blocked word. Please follow the server rules.".

Definition handleMessageFilter (message : Message) (env : FilterEnv) : M St unit :=
  try_catch
    (blockedWords ← on_storage getAllBlockedWords;
     if containsBlockedWord blockedWords (msg_content message) then
       call (CallMessageDelete (msg_content message)) (f_delete env);;
       try_catch
         (call (CallChannelSend (filter_notice message)) (f_channel_send env))
         (ret tt);;
       broadcastUpdate "messageFiltered"
         (DataFiltered (msg_author_id message) (msg_author_username message)
                       (msg_content message) (f_now env))
     else ret tt)
    (ret tt).

Definition on_MessageCreate (message : Message) (env : FilterEnv) : M St unit :=
  if msg_author_bot message then ret tt
  else handleMessageFilter message env.

(* --------------------------------------------------------------------- *)
(** ** Kick and ban *)

(** Outcomes of the Discord requests of one kick or ban, the identifier
    drawn by [randomUUID()] and the clock read by the store. *)
Record ModerationEnv := mkModerationEnv {
  env_guild : option Guild;
  env_fetch : Completion (option GuildMember);
  env_invite : Completion string;
  env_dm : Completion unit;
  env_enforce : Completion unit;
  env_uuid : string;
  env_now : Z
}.

Definition nl : string := String (ascii_of_nat 10) EmptyString.

(** [reason ? ... : ...] and [if (reason)]: a non-empty string. *)
Definition truthy (reason : option string) : bool :=
  match reason with
  | Some r => negb (String.eqb r "")
  | None => false
  end.

Definition for_reason (reason : option string) : string :=
  match reason with
  | Some r => if String.eqb r "" then "" else " for: " +:+ r
  | None => ""
  end.

Definition kickMember (memberId kickedBy : string) (reason : option string)
    (sendInvite : bool) (env : ModerationEnv) : M St bool :=
  try_catch
    (match env_guild env with
     | None => ret false
     | Some guild =>
         member ← call (CallFetch memberId) (env_fetch env);
         match member with
         | None => ret false
         | Some _ =>
             (if sendInvite then
                try_catch
                  (url ← call (CallInviteCreate 604800 1) (env_invite env);
                   call (CallSend memberId
                           ("You have been kicked from " +:+ g_name guild +:+
                            for_reason reason +:+ "." +:+ nl +:+ nl +:+
                            "You can rejoin using this invite: " +:+ url))
                        (env_dm env))
                  (ret tt)
              else if truthy reason then
                try_catch
                  (call (CallSend memberId
                           ("You have been kicked from " +:+ g_name guild +:+
                            " for: " +:+ default "" reason))
                        (env_dm env))
                  (ret tt)
              else ret tt);;
             call (CallKick memberId reason) (env_enforce env);;
             on_storage (createKickLog
                           {| ik_memberId := memberId; ik_kickedBy := kickedBy;
                              ik_reason := reason |}
                           (env_uuid env) (env_now env));;
             on_storage (deleteMember memberId (env_now env));;
             broadcastUpdate "memberKicked" (DataIdReason memberId reason);;
             ret true
         end
     end)
    (ret false).

Definition banMember (memberId bannedBy : string) (reason : option string)
    (sendInvite : bool) (env : ModerationEnv) : M St bool :=
  try_catch
    (match env_guild env with
     | None => ret false
     | Some guild =>
         member ← call (CallFetch memberId) (env_fetch env);
         match member with
         | None => ret false
         | Some _ =>
             (if sendInvite then
                try_catch
                  (url ← call (CallInviteCreate 604800 1) (env_invite env);
                   call (CallSend memberId
                           ("You have been banned from " +:+ g_name guild +:+
                            for_reason reason +:+ "." +:+ nl +:+ nl +:+
                            "You can appeal and rejoin using this invite: " +:+ url))
                        (env_dm env))
                  (ret tt)
              else if truthy reason then
                try_catch
                  (call (CallSend memberId
                           ("You have been banned from " +:+ g_name guild +:+
                            " for: " +:+ default "" reason))
                        (env_dm env))
                  (ret tt)
              else ret tt);;
             call (CallBan memberId reason) (env_enforce env);;
             on_storage (deleteMember memberId (env_now env));;
             broadcastUpdate "memberBanned" (DataIdReason memberId reason);;
             ret true
         end
     end)
    (ret false).

End DiscordBotService.

(* ===================================================================== *)
(** * Vocabulary of the statements *)
(* ===================================================================== *)

(** A create or a delete request against the store, with the clock it
    reads. *)
Inductive MemberOp :=
| OpCreate (insertMember : InsertMember) (now : Z)
| OpDelete (id : string) (now : Z).

Definition apply_op (s : MemStorage) (op : MemberOp) : MemStorage :=
  match op with
  | OpCreate i now => (MemStorage.createMember i now s).2
  | OpDelete id now => (MemStorage.deleteMember id now s).2
  end.

Definition run_ops (ops : list MemberOp) (s : MemStorage) : MemStorage :=
  fold_left apply_op ops s.

(** Whether the request writes to the store: [createMember] always does,
    [deleteMember] when it finds the record. *)
Definition writes (s : MemStorage) (op : MemberOp) : bool :=
  match op with
  | OpCreate _ _ => true
  | OpDelete id _ => bool_decide (is_Some (members s !! id))
  end.

(** Whether some request of the sequence, run from [s], writes. *)
Fixpoint some_write (ops : list MemberOp) (s : MemStorage) : bool :=
  match ops with
  | [] => false
  | op :: rest => writes s op || some_write rest (apply_op s op)
  end.

(** A store built through the public methods in which [totalMembers] has
    been set to [5] while no member is stored. *)
Definition store_total_5 : MemStorage :=
  (MemStorage.updateStats
     {| ps_totalMembers := Some 5; ps_onlineMembers := None;
        ps_activeToday := None; ps_recentKicks := None |}
     1 (MemStorage.constructor 0)).2.

(** [totalMembers] is the number of records in the store. *)
Definition total_in_sync (s : MemStorage) : Prop :=
  totalMembers (stats s) = Z.of_nat (size (members s)).

(** The three member counts of the aggregate agree with the store, for a
    reader at time [now]. *)
Definition stats_in_sync (now : Z) (s : MemStorage) : Prop :=
  totalMembers (stats s) = Z.of_nat (size (members s)) ∧
  onlineMembers (stats s) =
    Z.of_nat (length (List.filter is_online (values (members s)))) ∧
  activeToday (stats s) =
    Z.of_nat (length (List.filter (seen_today now) (values (members s)))).

(** [member] with the given balance, tags and last-activity time, and every
    other field as it is. *)
Definition touched (member : DiscordMember) (cash : Z) (roles : list string)
    (now : Z) : DiscordMember :=
  {| m_id := m_id member;
     m_username := m_username member;
     m_displayName := m_displayName member;
     m_discriminator := m_discriminator member;
     m_avatar := m_avatar member;
     m_status := m_status member;
     m_role := m_role member;
     m_roles := roles;
     m_cash := cash;
     m_joinedServerAt := m_joinedServerAt member;
     m_joinedDiscordAt := m_joinedDiscordAt member;
     m_joinedAt := m_joinedAt member;
     m_lastSeen := Some now |}.

(** A store holding one member last seen at the epoch, with the aggregate
    computed at time [100000000]. *)
Definition stale_member : DiscordMember :=
  {| m_id := "a"; m_username := "ann"; m_displayName := "Ann";
     m_discriminator := None; m_avatar := None; m_status := "offline";
     m_role := "Member"; m_roles := []; m_cash := 0;
     m_joinedServerAt := Some 0; m_joinedDiscordAt := None;
     m_joinedAt := Some 0; m_lastSeen := Some 0 |}.

Definition stale_store : MemStorage :=
  MemStorage.updateMemberCount 100000000
    (MemStorage.set_members {[ "a" := stale_member ]} (MemStorage.constructor 0)).

(** What changes when only the registry does. *)
Definition set_wsClients {St} (l : list WebSocket) (w : World St) : World St :=
  {| storage := storage w; wsClients := l; discord := discord w |}.

(** No socket that is [OPEN] throws from [send]. *)
Definition sends_succeed (l : list WebSocket) : bool :=
  forallb (fun ws => negb ((readyState ws =? OPEN) && send_throws ws)) l.

(** Every [OPEN] socket has been handed [messages], in that order, after
    what it had received; the other sockets are as they were. *)
Definition fanout (messages : list Envelope) (l : list WebSocket)
  : list WebSocket :=
  List.map (fun ws =>
              if readyState ws =? OPEN then
                {| ws_id := ws_id ws; readyState := readyState ws;
                   send_throws := send_throws ws;
                   received := (received ws ++ messages)%list |}
              else ws) l.

(** Sockets of the examples: one whose [send] throws, one that works and
    one that is [CLOSING] (2), whose close event has not fired yet. *)
Definition ws_broken : WebSocket :=
  {| ws_id := 1; readyState := OPEN; send_throws := true; received := [] |}.
Definition ws_ok : WebSocket :=
  {| ws_id := 2; readyState := OPEN; send_throws := false; received := [] |}.
Definition ws_closing : WebSocket :=
  {| ws_id := 3; readyState := 2; send_throws := false; received := [] |}.

Definition world_of {St} (s : St) (l : list WebSocket) : World St :=
  {| storage := s; wsClients := l; discord := [] |}.

(** What one of the four mutations leaves behind: the record under [id] is
    [m'], every other record, the kick log, the blocked words and the
    aggregate are as before. *)
Definition only_changes (id : string) (m' : DiscordMember)
    (s s' : MemStorage) : Prop :=
  members s' !! id = Some m' ∧
  (∀ id', id' ≠ id → members s' !! id' = members s !! id') ∧
  kickLogs s' = kickLogs s ∧
  blockedWords s' = blockedWords s ∧
  stats s' = stats s.

(** A guild with one member, a store that knows that member and one
    blocked term, and outcome records in which every Discord request
    succeeds. *)
Definition guild0 : Guild := {| g_name := "MiniSoccer" |}.

Definition member_a : GuildMember :=
  {| gm_id := "a";
     gm_user := {| usr_username := "ann"; usr_discriminator := "0001";
                   usr_avatar := None; usr_bot := false; usr_createdAt := 10 |};
     gm_displayName := "Ann"; gm_presence_status := Some "online";
     gm_has_Administrator := false; gm_has_KickMembers := false;
     gm_roles_cache := ["e"; "r1"]; gm_everyone := "e";
     gm_joinedAt := Some 20 |}.

Definition store_a : MemStorage :=
  (MemStorage.addBlockedWord {| ib_word := "ass"; ib_createdBy := "mod" |}
                             "w1" 0 stale_store).2.

Definition env_ok : ModerationEnv :=
  {| env_guild := Some guild0; env_fetch := Returns (Some member_a);
     env_invite := Returns "https://discord.gg/x"; env_dm := Returns tt;
     env_enforce := Returns tt; env_uuid := "u1"; env_now := 100000000 |}.

Definition env_enforce_fails : ModerationEnv :=
  {| env_guild := Some guild0; env_fetch := Returns (Some member_a);
     env_invite := Returns "https://discord.gg/x"; env_dm := Returns tt;
     env_enforce := Throws; env_uuid := "u1"; env_now := 100000000 |}.

Definition message_mass : Message :=
  {| msg_content := "mass production"; msg_author_id := "a";
     msg_author_username := "ann"; msg_author_bot := false |}.

(** The world once further requests to Discord have been made: the store
    and the sockets are untouched, the requests are recorded. *)
Definition after_calls {St} (w : World St) (calls : list DiscordCall)
  : World St :=
  {| storage := storage w; wsClients := wsClients w;
     discord := (discord w ++ calls)%list |}.

(** Outcomes for the filter: the removal fails, or only the notice does. *)
Definition env_delete_fails : FilterEnv :=
  {| f_delete := Throws; f_channel_send := Returns tt; f_now := 100000000 |}.

Definition env_notice_fails : FilterEnv :=
  {| f_delete := Returns tt; f_channel_send := Throws; f_now := 100000000 |}.

(** The loop of [syncMembers] seen from the store. *)
Fixpoint sync_store (clk : nat → Z) (i : nat) (l : list GuildMember)
    (s : MemStorage) : MemStorage :=
  match l with
  | [] => s
  | member :: rest =>
      if usr_bot (gm_user member) then sync_store clk (S i) rest s
      else sync_store clk (S i) rest
             (MemStorage.createMember (sync_record member) (clk i) s).2
  end.

(** The records the loop writes, on top of [acc]. *)
Fixpoint sync_batch (clk : nat → Z) (i : nat) (l : list GuildMember)
    (acc : gmap string DiscordMember) : gmap string DiscordMember :=
  match l with
  | [] => acc
  | member :: rest =>
      if usr_bot (gm_user member) then sync_batch clk (S i) rest acc
      else sync_batch clk (S i) rest
             (<[gm_id member :=
                  MemStorage.new_member (sync_record member) (clk i)]> acc)
  end.

(** The clock read by the last [createMember] of the loop, if any. *)
Fixpoint last_clock (clk : nat → Z) (i : nat) (l : list GuildMember)
    (t : option Z) : option Z :=
  match l with
  | [] => t
  | member :: rest =>
      if usr_bot (gm_user member) then last_clock clk (S i) rest t
      else last_clock clk (S i) rest (Some (clk i))
  end.

(** A record without the three fields that [createMember] takes from the
    clock. *)
Definition without_clock (m : DiscordMember) : DiscordMember :=
  {| m_id := m_id m; m_username := m_username m;
     m_displayName := m_displayName m; m_discriminator := m_discriminator m;
     m_avatar := m_avatar m; m_status := m_status m; m_role := m_role m;
     m_roles := m_roles m; m_cash := m_cash m;
     m_joinedServerAt := None;
     m_joinedDiscordAt := m_joinedDiscordAt m;
     m_joinedAt := None; m_lastSeen := None |}.

(** An action of the service on a [MemStorage] that leaves the kick log
    as it finds it. *)
Definition keeps_kickLogs {A} (c : M MemStorage A) : Prop :=
  ∀ w, kickLogs (storage (c w).2) = kickLogs (storage w).

(** Unfolds the monad so that an action is a nest of matches on the
    outcomes of its requests. *)
Ltac run_action :=
  unfold mbind, mret, M_bind, M_ret, bind, ret, try_catch, call, on_storage;
  cbn [storage wsClients discord fst snd].

(* ===================================================================== *)
(** * Further operations: the store *)
(* ===================================================================== *)






(** A call of a mutating method of [MemStorage], with the clock reading
    and the identifier it uses.  [updateStats], which writes the aggregate
    directly, is not among them. *)
Inductive StoreOp :=
| DoCreateMember (insertMember : InsertMember) (now : Z)
| DoUpdateMember (id : string) (updates : PartialMember) (now : Z)
| DoDeleteMember (id : string) (now : Z)
| DoUpdateMemberCash (id : string) (amount : Z) (now : Z)
| DoAddMemberCash (id : string) (amount : Z) (now : Z)
| DoAddMemberRole (id roleId : string) (now : Z)
| DoRemoveMemberRole (id roleId : string) (now : Z)
| DoCreateKickLog (insertLog : InsertKickLog) (uuid : string) (now : Z)
| DoAddBlockedWord (insertWord : InsertBlockedWord) (uuid : string) (now : Z)
| DoRemoveBlockedWord (id : string)
| DoRemoveAllBlockedWords
| DoRemoveAllMembers (now : Z).

Definition store_step (s : MemStorage) (op : StoreOp) : MemStorage :=
  match op with
  | DoCreateMember i now => (MemStorage.createMember i now s).2
  | DoUpdateMember id u now => (MemStorage.updateMember id u now s).2
  | DoDeleteMember id now => (MemStorage.deleteMember id now s).2
  | DoUpdateMemberCash id a now => (MemStorage.updateMemberCash id a now s).2
  | DoAddMemberCash id a now => (MemStorage.addMemberCash id a now s).2
  | DoAddMemberRole id r now => (MemStorage.addMemberRole id r now s).2
  | DoRemoveMemberRole id r now => (MemStorage.removeMemberRole id r now s).2
  | DoCreateKickLog l uuid now => (MemStorage.createKickLog l uuid now s).2
  | DoAddBlockedWord w uuid now => (MemStorage.addBlockedWord w uuid now s).2
  | DoRemoveBlockedWord id => (MemStorage.removeBlockedWord id s).2
  | DoRemoveAllBlockedWords => (MemStorage.removeAllBlockedWords s).2
  | DoRemoveAllMembers now => (MemStorage.removeAllMembers now s).2
  end.

Definition run_store (ops : list StoreOp) (s : MemStorage) : MemStorage :=
  fold_left store_step ops s.



(** [totalMembers] and [onlineMembers] agree with the store, and
    [activeToday] lies between zero and [totalMembers]. *)
Definition counts_exact (s : MemStorage) : Prop :=
  totalMembers (stats s) = Z.of_nat (size (members s)) ∧
  onlineMembers (stats s) =
    Z.of_nat (length (List.filter is_online (values (members s)))) ∧
  0 ≤ activeToday (stats s) ≤ totalMembers (stats s).

(** The call is one of the methods on members. *)
Definition member_op (op : StoreOp) : bool :=
  match op with
  | DoCreateKickLog _ _ _ | DoAddBlockedWord _ _ _ | DoRemoveBlockedWord _
  | DoRemoveAllBlockedWords => false
  | _ => true
  end.



(* ===================================================================== *)
(** * Further operations: the service *)
(* ===================================================================== *)






(* ===================================================================== *)
(** * Further operations: the routes *)
(* ===================================================================== *)

(** [addCashSchema = z.object({ amount: z.number() })] *)
Definition addCashSchema (amount : JsValue) : option Z :=
  match amount with
  | JNumber n => Some n
  | _ => None
  end.

(** [kickMemberSchema = z.object({ reason: z.string().optional() })] *)
Definition kickMemberSchema (reason : JsValue) : option (option string) :=
  match reason with
  | JUndefined => Some None
  | JString s => Some (Some s)
  | _ => None
  end.

(** [banMemberSchema]: [reason] as for a kick,
    [sendInvite: z.boolean().default(false)]. *)
Definition banMemberSchema (reason sendInvite : JsValue)
  : option (option string * bool) :=
  match kickMemberSchema reason, sendInvite with
  | Some r, JUndefined => Some (r, false)
  | Some r, JBool b => Some (r, b)
  | _, _ => None
  end.


Section MoreRoutes.
Context {St : Type} `{IStorage St}.

(** [POST /api/members/:id/cash/add] *)
Definition post_member_cash_add (id : string) (amount : JsValue) (now : Z)
    (s : St) : (Z * ResBody) * St :=
  match addCashSchema amount with
  | None => ((400, BodyError "Invalid request body"), s)
  | Some amount =>
      match addMemberCash id amount now s with
      | (Returns (Some updatedMember), s') =>
          ((200, BodyMember updatedMember), s')
      | (Returns None, s') => ((404, BodyError "Member not found"), s')
      | (Throws, s') => ((500, BodyError "Internal server error"), s')
      end
  end.

(** [POST /api/members/:id/kick]: the status and the [message] or [error]
    of the answer. *)
Definition post_member_kick (id : string) (reason : JsValue)
    (env : ModerationEnv) (w : World St) : (Z * string) * World St :=
  match kickMemberSchema reason with
  | None => ((400, "Invalid request body"), w)
  | Some reason =>
      match kickMember id "web-dashboard" reason false env w with
      | (Returns true, w') => ((200, "Member kicked successfully"), w')
      | (Returns false, w') => ((400, "Failed to kick member"), w')
      | (Throws, w') => ((500, "Internal server error"), w')
      end
  end.

(** [POST /api/members/:id/ban] *)
Definition post_member_ban (id : string) (reason sendInvite : JsValue)
    (env : ModerationEnv) (w : World St) : (Z * string) * World St :=
  match banMemberSchema reason sendInvite with
  | None => ((400, "Invalid request body"), w)
  | Some (reason, sendInvite) =>
      match banMember id "web-dashboard" reason sendInvite env w with
      | (Returns true, w') => ((200, "Member banned successfully"), w')
      | (Returns false, w') => ((400, "Failed to ban member"), w')
      | (Throws, w') => ((500, "Internal server error"), w')
      end
  end.


End MoreRoutes.

(** An action of the service that asks Discord for no invite: every
    invite request on record after it was on record before it. *)
Definition asks_no_invite {St A} (c : M St A) : Prop :=
  ∀ w maxAge maxUses,
    In (CallInviteCreate maxAge maxUses) (discord (c w).2) →
    In (CallInviteCreate maxAge maxUses) (discord w).

(* ===================================================================== *)
(** * Further operations: the dashboard *)
(* ===================================================================== *)



(* ===================================================================== *)
(** * The store: counting *)
(* ===================================================================== *)

Lemma length_values {A} (m : gmap string A) :
  length (values m) = size m.
Proof. unfold values. by rewrite length_fmap, length_map_to_list. Qed.

Lemma updateMemberCount_members now s :
  members (MemStorage.updateMemberCount now s) = members s.
Proof. reflexivity. Qed.

Lemma updateMemberCount_in_sync now s :
  stats_in_sync now (MemStorage.updateMemberCount now s).
Proof.
  unfold stats_in_sync; cbn. by rewrite length_values.
Qed.

Lemma stats_in_sync_total now s : stats_in_sync now s → total_in_sync s.
Proof. by intros [H _]. Qed.

Lemma createMember_in_sync i now s :
  stats_in_sync now (MemStorage.createMember i now s).2.
Proof. apply updateMemberCount_in_sync. Qed.

Lemma deleteMember_total id now s :
  total_in_sync s → total_in_sync (MemStorage.deleteMember id now s).2.
Proof.
  intros H. unfold MemStorage.deleteMember. destruct (members s !! id); [|done].
  eapply stats_in_sync_total, updateMemberCount_in_sync.
Qed.

Lemma apply_op_total s op : total_in_sync s → total_in_sync (apply_op s op).
Proof.
  destruct op as [i now|id now]; cbn [apply_op]; intros H.
  - eapply stats_in_sync_total, createMember_in_sync.
  - by apply deleteMember_total.
Qed.

Lemma constructor_total now : total_in_sync (MemStorage.constructor now).
Proof. unfold total_in_sync; cbn. by rewrite map_size_empty. Qed.

Lemma apply_op_writes s op :
  writes s op = true → total_in_sync (apply_op s op).
Proof.
  destruct op as [i now|id now]; cbn [writes apply_op]; intros H.
  - eapply stats_in_sync_total, createMember_in_sync.
  - apply bool_decide_eq_true in H as [m Hm].
    unfold MemStorage.deleteMember. rewrite Hm.
    eapply stats_in_sync_total, updateMemberCount_in_sync.
Qed.

Lemma apply_op_no_write s op : writes s op = false → apply_op s op = s.
Proof.
  destruct op as [i now|id now]; cbn [writes apply_op]; intros H; [done|].
  apply bool_decide_eq_false in H.
  unfold MemStorage.deleteMember.
  destruct (members s !! id) eqn:E; [|done]. destruct H. by eexists.
Qed.

Lemma total_in_sync_replace id m' s :
  is_Some (members s !! id) → total_in_sync s →
  total_in_sync (MemStorage.set_members (<[id := m']> (members s)) s).
Proof.
  intros Hm Hs. unfold total_in_sync in *.
  cbn [members stats MemStorage.set_members].
  by rewrite map_size_insert_Some.
Qed.

(** Every mutating method keeps [totalMembers] right: the member methods
    that change the number of records recount, and the others leave both
    the number and the aggregate's count alone. *)
Lemma store_step_total s op : total_in_sync s → total_in_sync (store_step s op).
Proof.
  intros Hs.
  destruct op as [i now|id u now|id now|id a now|id a now|id r now|id r now
                 |l uuid now|w uuid now|id| |now]; cbn [store_step].
  - eapply stats_in_sync_total, createMember_in_sync.
  - unfold MemStorage.updateMember.
    destruct (members s !! id) eqn:Hm; [|done].
    eapply stats_in_sync_total, updateMemberCount_in_sync.
  - by apply deleteMember_total.
  - unfold MemStorage.updateMemberCash.
    destruct (members s !! id) eqn:Hm; [|done].
    apply total_in_sync_replace; [by rewrite Hm | done].
  - unfold MemStorage.addMemberCash.
    destruct (members s !! id) eqn:Hm; [|done].
    apply total_in_sync_replace; [by rewrite Hm | done].
  - unfold MemStorage.addMemberRole.
    destruct (members s !! id) eqn:Hm; [|done].
    apply total_in_sync_replace; [by rewrite Hm | done].
  - unfold MemStorage.removeMemberRole.
    destruct (members s !! id) eqn:Hm; [|done].
    apply total_in_sync_replace; [by rewrite Hm | done].
  - exact Hs.
  - exact Hs.
  - exact Hs.
  - exact Hs.
  - eapply stats_in_sync_total, updateMemberCount_in_sync.
Qed.

Lemma run_store_total history s :
  total_in_sync s → total_in_sync (run_store history s).
Proof.
  unfold run_store. revert s.
  induction history as [|op history IH]; intros s Hs; cbn [fold_left]; [done|].
  by apply IH, store_step_total.
Qed.

Lemma run_ops_total (s : MemStorage) (ops : list MemberOp) :
  total_in_sync s ∨ some_write ops s = true →
  total_in_sync (run_ops ops s).
Proof.
  unfold run_ops. revert s.
  induction ops as [|op ops IH]; intros s H; cbn [fold_left some_write] in *.
  - by destruct H.
  - apply IH. destruct H as [H | [H | H]%orb_true_iff].
    + left. by apply apply_op_total.
    + left. by apply apply_op_writes.
    + by right.
Qed.

(** C7. In every state of the store — the constructed store after any
    history of calls of its mutating methods, [updateStats] apart — and
    after any sequence of [createMember] and [deleteMember] calls from
    there, [totalMembers] is the number of records in the store.  The sequence keeps [totalMembers]
    right from any store in which it is right, and it makes it right from
    any store at all once a call writes: every [createMember] does, and
    every [deleteMember] that finds its record. *)
Theorem totalMembers_counts_records
    (now0 : Z) (history : list StoreOp) (ops : list MemberOp) :
  total_in_sync
    (run_ops ops (run_store history (MemStorage.constructor now0))) ∧
  (∀ s, total_in_sync s → total_in_sync (run_ops ops s)) ∧
  (∀ s, some_write ops s = true → total_in_sync (run_ops ops s)).
Proof.
  split; [|split].
  - apply run_ops_total. left. apply run_store_total, constructor_total.
  - intros s Hs. apply run_ops_total. by left.
  - intros s Hw. apply run_ops_total. by right.
Qed.

Lemma totalMembers_counts_records_witness :
  total_in_sync
    (run_ops [OpDelete "ghost" 6; OpCreate (join_record member_a) 7;
              OpDelete "a" 8]
       (run_store [DoCreateMember (join_record member_a) 1;
                   DoUpdateMemberCash "a" 5 2; DoDeleteMember "ghost" 3;
                   DoRemoveAllMembers 4]
                  (MemStorage.constructor 0))) ∧
  total_in_sync
    (run_ops [OpCreate (join_record member_a) 7; OpDelete "ghost" 8]
             stale_store).
Proof.
  split.
  - exact (proj1 (totalMembers_counts_records 0
                    [DoCreateMember (join_record member_a) 1;
                     DoUpdateMemberCash "a" 5 2; DoDeleteMember "ghost" 3;
                     DoRemoveAllMembers 4]
                    [OpDelete "ghost" 6; OpCreate (join_record member_a) 7;
                     OpDelete "a" 8])).
  - apply (proj1 (proj2 (totalMembers_counts_records 0 []
                    [OpCreate (join_record member_a) 7; OpDelete "ghost" 8]))).
    vm_compute. reflexivity.
Defined.

(** [updateStats] is the one method that writes the aggregate as given:
    it can set [totalMembers] to [5] in a store without records, and a
    [deleteMember] of an id that is not stored then returns without
    recounting.  Nothing calls [updateStats] on this store. *)
Lemma updateStats_writes_totalMembers_as_given :
  totalMembers (stats (run_ops [OpDelete "ghost" 2] store_total_5)) = 5 ∧
  size (members (run_ops [OpDelete "ghost" 2] store_total_5)) = 0%nat.
Proof. split; vm_compute; reflexivity. Qed.

(** A sequence in which no call writes leaves the store as it was. *)
Lemma run_ops_no_write s ops : some_write ops s = false → run_ops ops s = s.
Proof.
  unfold run_ops. revert s.
  induction ops as [|op ops IH]; intros s H; cbn [fold_left some_write] in *;
    [done|].
  apply orb_false_iff in H as [Hop Hrest].
  rewrite (apply_op_no_write _ _ Hop) in *. by apply IH.
Qed.

(* ===================================================================== *)
(** * The store: balance and tag mutations *)
(* ===================================================================== *)

Lemma seen_today_touched m cash roles now now' :
  now' - 86400000 < now → seen_today now' (touched m cash roles now) = true.
Proof.
  intros H. unfold seen_today, after_dayAgo, dayAgo; cbn. by apply Z.ltb_lt.
Qed.

Lemma updateMemberCash_found id amount now s m :
  members s !! id = Some m →
  MemStorage.updateMemberCash id amount now s =
    (Some (touched m amount (m_roles m) now),
     MemStorage.set_members
       (<[id := touched m amount (m_roles m) now]> (members s)) s).
Proof. intros H. unfold MemStorage.updateMemberCash. by rewrite H. Qed.

Lemma addMemberCash_found id amount now s m :
  members s !! id = Some m →
  MemStorage.addMemberCash id amount now s =
    (Some (touched m (m_cash m + amount) (m_roles m) now),
     MemStorage.set_members
       (<[id := touched m (m_cash m + amount) (m_roles m) now]> (members s)) s).
Proof. intros H. unfold MemStorage.addMemberCash. by rewrite H. Qed.

Lemma addMemberRole_found id roleId now s m :
  members s !! id = Some m →
  let roles := if includes_role (m_roles m) roleId then m_roles m
               else (m_roles m ++ [roleId])%list in
  MemStorage.addMemberRole id roleId now s =
    (Some (touched m (m_cash m) roles now),
     MemStorage.set_members
       (<[id := touched m (m_cash m) roles now]> (members s)) s).
Proof. intros H. unfold MemStorage.addMemberRole. by rewrite H. Qed.

Lemma removeMemberRole_found id roleId now s m :
  members s !! id = Some m →
  let roles := List.filter (fun r => negb (String.eqb r roleId)) (m_roles m) in
  MemStorage.removeMemberRole id roleId now s =
    (Some (touched m (m_cash m) roles now),
     MemStorage.set_members
       (<[id := touched m (m_cash m) roles now]> (members s)) s).
Proof. intros H. unfold MemStorage.removeMemberRole. by rewrite H. Qed.

Lemma elem_of_values {A} (m : gmap string A) id x :
  m !! id = Some x → In x (values m).
Proof.
  intros H. apply list_elem_of_In. unfold values.
  apply list_elem_of_fmap. exists (id, x). split; [done|].
  by apply elem_of_map_to_list.
Qed.

Lemma filter_length_pos {A} (f : A → bool) (l : list A) x :
  In x l → f x = true → (1 ≤ length (List.filter f l))%nat.
Proof.
  intros Hin Hf.
  assert (Hx : In x (List.filter f l)) by (apply filter_In; auto).
  destruct (List.filter f l); [destruct Hx | cbn; lia].
Qed.

(** A record that passes the test is counted by the next recompute. *)
Lemma counted_active id m now s :
  members s !! id = Some m → seen_today now m = true →
  1 ≤ activeToday (stats (MemStorage.updateMemberCount now s)).
Proof.
  intros Hm Hseen. cbn.
  pose proof (filter_length_pos (seen_today now) (values (members s)) m
                (elem_of_values _ _ _ Hm) Hseen).
  lia.
Qed.

Lemma set_members_only_changes id m' s :
  only_changes id m' s (MemStorage.set_members (<[id := m']> (members s)) s).
Proof.
  unfold only_changes; cbn. split; [apply lookup_insert_eq|].
  split; [|done]. intros id' Hne. by apply lookup_insert_ne.
Qed.

(** C10. On an existing member each of [updateMemberCash], [addMemberCash],
    [addMemberRole] and [removeMemberRole] returns and stores the record
    with the targeted field (cash or roles) changed, [lastSeen] set to the
    current time and every other field untouched; nothing else in the store
    changes; and the stored record passes the [activeToday] test at the
    time of the call and for the next 24 hours. *)
Theorem balance_and_tag_mutations_refresh_lastSeen
    (id : string) (m : DiscordMember) (now : Z) (s : MemStorage) :
  members s !! id = Some m →
  (∀ amount,
     let m' := touched m amount (m_roles m) now in
     (MemStorage.updateMemberCash id amount now s).1 = Some m' ∧
     only_changes id m' s (MemStorage.updateMemberCash id amount now s).2) ∧
  (∀ amount,
     let m' := touched m (m_cash m + amount) (m_roles m) now in
     (MemStorage.addMemberCash id amount now s).1 = Some m' ∧
     only_changes id m' s (MemStorage.addMemberCash id amount now s).2) ∧
  (∀ roleId,
     let m' := touched m (m_cash m)
                 (if includes_role (m_roles m) roleId then m_roles m
                  else (m_roles m ++ [roleId])%list) now in
     (MemStorage.addMemberRole id roleId now s).1 = Some m' ∧
     only_changes id m' s (MemStorage.addMemberRole id roleId now s).2) ∧
  (∀ roleId,
     let m' := touched m (m_cash m)
                 (List.filter (fun r => negb (String.eqb r roleId)) (m_roles m))
                 now in
     (MemStorage.removeMemberRole id roleId now s).1 = Some m' ∧
     only_changes id m' s (MemStorage.removeMemberRole id roleId now s).2) ∧
  (∀ cash roles now' s',
     now' - 86400000 < now →
     members s' !! id = Some (touched m cash roles now) →
     m_lastSeen (touched m cash roles now) = Some now ∧
     seen_today now' (touched m cash roles now) = true ∧
     1 ≤ activeToday (stats (MemStorage.updateMemberCount now' s'))).
Proof.
  intros Hm.
  split; [intros amount m'; subst m';
          rewrite (updateMemberCash_found _ _ _ _ _ Hm);
          split; [done | apply set_members_only_changes]|].
  split; [intros amount m'; subst m';
          rewrite (addMemberCash_found _ _ _ _ _ Hm);
          split; [done | apply set_members_only_changes]|].
  split; [intros roleId m'; subst m';
          rewrite (addMemberRole_found _ _ _ _ _ Hm);
          split; [done | apply set_members_only_changes]|].
  split; [intros roleId m'; subst m';
          rewrite (removeMemberRole_found _ _ _ _ _ Hm);
          split; [done | apply set_members_only_changes]|].
  intros cash roles now' s' Hnow Hs'. split; [done|].
  split; [by apply seen_today_touched|].
  eapply counted_active; [done|]. by apply seen_today_touched.
Qed.

Lemma balance_and_tag_mutations_refresh_lastSeen_witness :
  (MemStorage.updateMemberCash "a" 5 100000000 stale_store).1
    = Some (touched stale_member 5 [] 100000000) ∧
  (MemStorage.removeMemberRole "a" "r" 100000000 stale_store).1
    = Some (touched stale_member 0 [] 100000000).
Proof.
  assert (H : members stale_store !! "a" = Some stale_member)
    by (vm_compute; reflexivity).
  pose proof (balance_and_tag_mutations_refresh_lastSeen _ _ 100000000 _ H)
    as (Hset & _ & _ & Hrem & _).
  split; [apply (Hset 5) | apply (Hrem "r")].
Defined.

(* ===================================================================== *)
(** * The store: when the aggregate is recomputed *)
(* ===================================================================== *)

(** C6, as stated, fails.  In [stale_store] the aggregate agrees with the
    store at time [100000000]; [updateMemberCash] then succeeds on member
    ["a"] and returns with [activeToday] still [0] although the record now
    passes the test. *)
Lemma updateMemberCash_leaves_aggregate_stale :
  stats_in_sync 100000000 stale_store ∧
  is_Some (MemStorage.updateMemberCash "a" 5 100000000 stale_store).1 ∧
  ¬ stats_in_sync 100000000
      (MemStorage.updateMemberCash "a" 5 100000000 stale_store).2.
Proof.
  split; [apply updateMemberCount_in_sync|].
  split; [by eexists|].
  intros (_ & _ & H). vm_compute in H. discriminate H.
Qed.

Lemma updateMember_found id u now s m :
  members s !! id = Some m →
  MemStorage.updateMember id u now s =
    (Some (with_lastSeen (spread m u) (Some now)),
     MemStorage.updateMemberCount now
       (MemStorage.set_members
          (<[id := with_lastSeen (spread m u) (Some now)]> (members s)) s)).
Proof. intros H. unfold MemStorage.updateMember. by rewrite H. Qed.

Lemma deleteMember_found id now s m :
  members s !! id = Some m →
  MemStorage.deleteMember id now s =
    (true,
     MemStorage.updateMemberCount now
       (MemStorage.set_members (delete id (members s)) s)).
Proof. intros H. unfold MemStorage.deleteMember. by rewrite H. Qed.

(** C6, amended.  [createMember], [updateMember] and [deleteMember] on an
    existing member, and [removeAllMembers], recompute the member counts of
    the aggregate before they return, so the counts agree with the store
    for a reader at that time.  [updateMemberCash] and [addMemberCash] do
    not recompute: they return with the aggregate exactly as it was. *)
Theorem aggregate_recomputed_by_create_update_delete
    (id : string) (m : DiscordMember) (now : Z) (s : MemStorage) :
  members s !! id = Some m →
  (∀ i, stats_in_sync now (MemStorage.createMember i now s).2) ∧
  (∀ u, stats_in_sync now (MemStorage.updateMember id u now s).2) ∧
  stats_in_sync now (MemStorage.deleteMember id now s).2 ∧
  stats_in_sync now (MemStorage.removeAllMembers now s).2 ∧
  (∀ amount, stats (MemStorage.updateMemberCash id amount now s).2 = stats s) ∧
  (∀ amount, stats (MemStorage.addMemberCash id amount now s).2 = stats s).
Proof.
  intros Hm.
  split; [intros i; apply createMember_in_sync|].
  split; [intros u; rewrite (updateMember_found _ _ _ _ _ Hm);
          apply updateMemberCount_in_sync|].
  split; [rewrite (deleteMember_found _ _ _ _ Hm);
          apply updateMemberCount_in_sync|].
  split; [apply updateMemberCount_in_sync|].
  split; intros amount.
  - by rewrite (updateMemberCash_found _ _ _ _ _ Hm).
  - by rewrite (addMemberCash_found _ _ _ _ _ Hm).
Qed.

Lemma aggregate_recomputed_by_create_update_delete_witness :
  stats_in_sync 100000000
    (MemStorage.updateMember "a" (status_update "online") 100000000
                             stale_store).2 ∧
  stats (MemStorage.addMemberCash "a" 3 100000000 stale_store).2
    = stats stale_store.
Proof.
  assert (H : members stale_store !! "a" = Some stale_member)
    by (vm_compute; reflexivity).
  pose proof (aggregate_recomputed_by_create_update_delete _ _ 100000000 _ H)
    as (_ & Hupd & _ & _ & _ & Hadd).
  split; [apply Hupd | apply Hadd].
Defined.

(* ===================================================================== *)
(** * [PUT /api/members/:id/cash] *)
(* ===================================================================== *)

(** C8. The handler answers 400 to every negative amount and leaves the
    store as it was; for every amount that is not negative and every
    existing member it answers 200 with the updated record, and the balance
    stored for that member is exactly the amount, whatever the balance was
    before. *)
Theorem put_member_cash_sets_balance
    (id : string) (n now : Z) (s : MemStorage) :
  (n < 0 →
     put_member_cash id (JNumber n) now s
       = ((400, BodyError "Invalid request body"), s)) ∧
  (0 ≤ n →
     ∀ m, members s !! id = Some m →
     ∃ m' s',
       put_member_cash id (JNumber n) now s = ((200, BodyMember m'), s') ∧
       s' = (MemStorage.updateMemberCash id n now s).2 ∧
       members s' !! id = Some m' ∧
       m_cash m' = n).
Proof.
  unfold put_member_cash, updateCashSchema. split; intros Hn.
  - apply Z.leb_gt in Hn. by rewrite Hn.
  - intros m Hm. apply Z.leb_le in Hn. rewrite Hn.
    change (updateMemberCash id n now s)
      with (returns (MemStorage.updateMemberCash id n now) s).
    unfold returns. rewrite (updateMemberCash_found _ _ _ _ _ Hm).
    eexists _, _. split; [reflexivity|]. split; [reflexivity|].
    split; [apply lookup_insert_eq | reflexivity].
Qed.

Lemma put_member_cash_sets_balance_witness :
  put_member_cash "a" (JNumber (-1)) 100000000 stale_store
    = ((400, BodyError "Invalid request body"), stale_store) ∧
  ∃ m' s',
    put_member_cash "a" (JNumber 7) 100000000 stale_store
      = ((200, BodyMember m'), s') ∧
    s' = (MemStorage.updateMemberCash "a" 7 100000000 stale_store).2 ∧
    members s' !! "a" = Some m' ∧ m_cash m' = 7.
Proof.
  split.
  - apply (put_member_cash_sets_balance "a" (-1) 100000000 stale_store). lia.
  - apply (proj2 (put_member_cash_sets_balance "a" 7 100000000 stale_store))
      with (m := stale_member); [lia | vm_compute; reflexivity].
Defined.


(* ===================================================================== *)
(** * The blocked-term test *)
(* ===================================================================== *)

Lemma prefix_app (t s : string) :
  String.prefix t s = true ↔ ∃ post, s = t +:+ post.
Proof.
  revert s. induction t as [|a t IH]; intros [|b s]; cbn.
  - split; [intros _; by exists EmptyString | done].
  - split; [intros _; by exists (String b s) | done].
  - split; [done | intros [post H]; discriminate H].
  - destruct (ascii_dec a b) as [->|Hne].
    + rewrite IH. split; intros [post H]; exists post.
      * cbn. by rewrite H.
      * cbn in H. by injection H.
    + split; [done | intros [post H]; cbn in H; injection H as Hab _; by subst].
Qed.

Lemma includes_substring (s t : string) :
  includes s t = true ↔ substring_of t s.
Proof.
  unfold substring_of. induction s as [|c s IH]; cbn [includes].
  - rewrite orb_false_r, prefix_app. split.
    + intros [post H]. by exists EmptyString, post.
    + intros ([|a pre] & post & H); [by exists post | discriminate H].
  - rewrite orb_true_iff, prefix_app, IH. split.
    + intros [[post H] | (pre & post & H)].
      * by exists EmptyString, post.
      * exists (String c pre), post. cbn. by rewrite H.
    + intros ([|a pre] & post & H).
      * left. by exists post.
      * right. exists pre, post. cbn in H. by injection H.
Qed.

Lemma containsBlockedWord_spec words content :
  containsBlockedWord words content = true ↔ spec_blocked words content.
Proof.
  unfold containsBlockedWord, spec_blocked. rewrite existsb_exists.
  split; intros (w & Hin & H); exists w; (split; [done|]);
    by apply includes_substring.
Qed.

(** C9. The test of the filter is true exactly when the case-folded
    content contains the case-folded form of some blocked term as a
    substring; and whenever ["ass"] is among the blocked terms, both
    ["mass production"] and ["ASSIGN"] match. *)
Theorem filter_matches_by_substring (words : list BlockedWord) :
  (∀ content,
     containsBlockedWord words content = true ↔ spec_blocked words content) ∧
  ((∃ w, In w words ∧ b_word w = "ass") →
     containsBlockedWord words "mass production" = true ∧
     containsBlockedWord words "ASSIGN" = true).
Proof.
  split; [intros content; apply containsBlockedWord_spec|].
  intros (w & Hin & Hw).
  split; apply containsBlockedWord_spec; exists w; (split; [done|]);
    rewrite Hw; apply includes_substring; vm_compute; reflexivity.
Qed.

Lemma filter_matches_by_substring_witness :
  containsBlockedWord
    [mkBlockedWord "1" "darn" None "mod"; mkBlockedWord "2" "ass" None "mod"]
    "mass production" = true ∧
  containsBlockedWord
    [mkBlockedWord "1" "darn" None "mod"; mkBlockedWord "2" "ass" None "mod"]
    "ASSIGN" = true.
Proof.
  apply filter_matches_by_substring.
  exists (mkBlockedWord "2" "ass" None "mod").
  split; [cbn; auto | reflexivity].
Defined.

(** The same test against the blocked words held by the store. *)
Lemma stored_term_matches (s : MemStorage) id w content :
  blockedWords s !! id = Some w →
  substring_of (toLowerCase (b_word w)) (toLowerCase content) →
  containsBlockedWord (MemStorage.getAllBlockedWords s) content = true.
Proof.
  intros Hw Hsub. apply containsBlockedWord_spec. exists w.
  split; [|done]. by eapply elem_of_values.
Qed.

(* ===================================================================== *)
(** * The web-socket registry: fan-out *)
(* ===================================================================== *)

Lemma forEach_send_ids message l :
  List.map ws_id (forEach_send message l).2 = List.map ws_id l.
Proof.
  induction l as [|ws l IH]; cbn; [done|].
  destruct (readyState ws =? OPEN).
  - destruct (send_throws ws); [done|].
    destruct (forEach_send message l) as [r l']. cbn in *. by rewrite IH.
  - destruct (forEach_send message l) as [r l']. cbn in *. by rewrite IH.
Qed.

Lemma forEach_send_fanout message l :
  sends_succeed l = true →
  forEach_send message l = (Returns tt, fanout [message] l).
Proof.
  induction l as [|ws l IH]; cbn; [done|].
  intros [Hws Hl]%andb_true_iff. rewrite (IH Hl). unfold deliver.
  destruct (readyState ws =? OPEN); [|reflexivity].
  destruct (send_throws ws); [discriminate Hws | reflexivity].
Qed.

Lemma sends_succeed_fanout messages l :
  sends_succeed (fanout messages l) = sends_succeed l.
Proof.
  unfold sends_succeed, fanout.
  induction l as [|ws l IH]; cbn; [done|]. rewrite IH. f_equal.
  destruct (readyState ws =? OPEN) eqn:E; cbn; by rewrite ?E.
Qed.

Lemma fanout_fanout m1 m2 l :
  fanout m2 (fanout m1 l) = fanout (m1 ++ m2) l.
Proof.
  unfold fanout.
  induction l as [|ws l IH]; cbn; [done|]. rewrite IH. f_equal.
  destruct (readyState ws =? OPEN) eqn:E; cbn; rewrite ?E; [|done].
  by rewrite <- app_assoc.
Qed.

Lemma broadcastUpdate_ids {St} type data (w : World St) :
  List.map ws_id (wsClients (broadcastUpdate type data w).2)
    = List.map ws_id (wsClients w).
Proof.
  unfold broadcastUpdate.
  pose proof (forEach_send_ids (mkEnvelope type data) (wsClients w)) as H.
  by destruct (forEach_send _ _) as [r l].
Qed.

Lemma broadcastUpdate_fanout {St} type data (w : World St) :
  sends_succeed (wsClients w) = true →
  broadcastUpdate type data w
    = (Returns tt, set_wsClients (fanout [mkEnvelope type data] (wsClients w)) w).
Proof.
  intros H. unfold broadcastUpdate. by rewrite (forEach_send_fanout _ _ H).
Qed.

(** C4, as stated, fails.  With a registered socket whose [send] throws
    placed before a working one, the publish ends by throwing, the working
    socket has received nothing and the failing one is still registered;
    and a registered socket that is [CLOSING] is passed over: it receives
    nothing and stays registered. *)
Lemma broadcastUpdate_no_isolation_no_pruning :
  (let r := broadcastUpdate "memberLeft" (DataId "a")
              (world_of (MemStorage.constructor 0) [ws_broken; ws_ok]) in
   r.1 = Throws ∧
   List.map received (wsClients r.2) = [[]; []] ∧
   List.map ws_id (wsClients r.2) = [1; 2]%nat) ∧
  (let r := broadcastUpdate "memberLeft" (DataId "a")
              (world_of (MemStorage.constructor 0) [ws_closing; ws_ok]) in
   r.1 = Returns tt ∧
   List.map received (wsClients r.2)
     = [[]; [mkEnvelope "memberLeft" (DataId "a")]] ∧
   List.map ws_id (wsClients r.2) = [3; 2]%nat).
Proof. vm_compute. repeat split. Qed.

(** C4, amended.  A publish never changes which sockets are registered;
    when no [OPEN] socket throws from [send], it returns after handing the
    envelope to every registered socket that is [OPEN] and to no other, and
    two publishes in a row leave every [OPEN] socket with the first
    envelope followed by the second after what it had received before. *)
Theorem broadcastUpdate_delivers_to_open_sockets
    {St : Type} (w : World St) (type1 type2 : string) (data1 data2 : Payload) :
  List.map ws_id (wsClients (broadcastUpdate type1 data1 w).2)
    = List.map ws_id (wsClients w) ∧
  (sends_succeed (wsClients w) = true →
     broadcastUpdate type1 data1 w
       = (Returns tt,
          set_wsClients (fanout [mkEnvelope type1 data1] (wsClients w)) w) ∧
     (broadcastUpdate type1 data1;; broadcastUpdate type2 data2) w
       = (Returns tt,
          set_wsClients
            (fanout [mkEnvelope type1 data1; mkEnvelope type2 data2] (wsClients w))
            w)).
Proof.
  split; [apply broadcastUpdate_ids|]. intros H.
  split; [by apply broadcastUpdate_fanout|].
  unfold mbind, M_bind, bind.
  rewrite (broadcastUpdate_fanout _ _ _ H).
  rewrite broadcastUpdate_fanout;
    [|cbn [set_wsClients wsClients]; by rewrite sends_succeed_fanout].
  unfold set_wsClients; cbn [storage wsClients discord].
  by rewrite fanout_fanout.
Qed.

Lemma broadcastUpdate_delivers_to_open_sockets_witness :
  (broadcastUpdate "memberJoined" (DataId "a");;
   broadcastUpdate "memberLeft" (DataId "a"))
    (world_of (MemStorage.constructor 0) [ws_closing; ws_ok])
  = (Returns tt,
     set_wsClients
       (fanout [mkEnvelope "memberJoined" (DataId "a");
                mkEnvelope "memberLeft" (DataId "a")] [ws_closing; ws_ok])
       (world_of (MemStorage.constructor 0) [ws_closing; ws_ok])).
Proof.
  apply (broadcastUpdate_delivers_to_open_sockets
           (world_of (MemStorage.constructor 0) [ws_closing; ws_ok])).
  vm_compute. reflexivity.
Defined.

(** Registration and the close event are the only changes to the set of
    registered sockets. *)
Lemma addWebSocketClient_registers {St} ws (w : World St) :
  In (ws_id ws) (List.map ws_id (wsClients (addWebSocketClient ws w).2)).
Proof.
  unfold addWebSocketClient, wsClients_add. cbn [snd wsClients].
  destruct (existsb _ _) eqn:E.
  - apply existsb_exists in E as (x & Hin & Hx).
    apply Nat.eqb_eq in Hx. rewrite <- Hx. by apply in_map.
  - rewrite map_app. apply in_or_app. right. by left.
Qed.

Lemma on_close_unregisters {St} id (w : World St) :
  ¬ In id (List.map ws_id (wsClients (on_close id w).2)).
Proof.
  unfold on_close, wsClients_delete. cbn [snd wsClients].
  intros (ws & Hid & Hin)%in_map_iff.
  apply filter_In in Hin as [_ H].
  by rewrite Hid, Nat.eqb_refl in H.
Qed.

(* ===================================================================== *)
(** * Kick and ban *)
(* ===================================================================== *)

(** C1. When the enforcement request fails — [member.kick] for
    [kickMember], [guild.bans.create] for [banMember] — the action returns
    [false], and the store (members, kick log, blocked words, aggregate) and
    every registered socket, with what it has received, are exactly as
    before the call. *)
Theorem enforcement_failure_changes_nothing
    {St : Type} `{IStorage St}
    (memberId actor : string) (reason : option string) (sendInvite : bool)
    (env : ModerationEnv) (w : World St) :
  env_enforce env = Throws →
  ((kickMember memberId actor reason sendInvite env w).1 = Returns false ∧
   storage (kickMember memberId actor reason sendInvite env w).2 = storage w ∧
   wsClients (kickMember memberId actor reason sendInvite env w).2 = wsClients w) ∧
  ((banMember memberId actor reason sendInvite env w).1 = Returns false ∧
   storage (banMember memberId actor reason sendInvite env w).2 = storage w ∧
   wsClients (banMember memberId actor reason sendInvite env w).2 = wsClients w).
Proof.
  intros Hfail. unfold kickMember, banMember. run_action. rewrite Hfail.
  destruct (env_guild env) as [g|]; [|done].
  destruct (env_fetch env) as [[gm|]|]; [|done|done].
  destruct sendInvite.
  - destruct (env_invite env) as [url|]; [destruct (env_dm env)|]; done.
  - destruct (truthy reason); [destruct (env_dm env)|]; done.
Qed.

Lemma enforcement_failure_changes_nothing_witness :
  (kickMember "a" "web-dashboard" (Some "spam") true env_enforce_fails
     (world_of store_a [ws_ok])).1 = Returns false ∧
  storage (kickMember "a" "web-dashboard" (Some "spam") true env_enforce_fails
             (world_of store_a [ws_ok])).2 = store_a ∧
  wsClients (kickMember "a" "web-dashboard" (Some "spam") true env_enforce_fails
               (world_of store_a [ws_ok])).2 = [ws_ok].
Proof.
  apply (enforcement_failure_changes_nothing "a" "web-dashboard" (Some "spam")
           true env_enforce_fails (world_of store_a [ws_ok])).
  reflexivity.
Defined.

(** After a successful enforcement [kickMember] writes the log entry, then
    deletes the member, then publishes [memberKicked] with the id and the
    reason. *)
Lemma kickMember_enforced {St : Type} `{IStorage St}
    memberId kickedBy reason sendInvite env (w : World St) g gm :
  env_guild env = Some g → env_fetch env = Returns (Some gm) →
  env_enforce env = Returns tt →
  ∃ calls,
    kickMember memberId kickedBy reason sendInvite env w =
      try_catch
        (on_storage (createKickLog (mkInsertKickLog memberId kickedBy reason)
                                   (env_uuid env) (env_now env));;
         on_storage (deleteMember memberId (env_now env));;
         broadcastUpdate "memberKicked" (DataIdReason memberId reason);;
         ret true)
        (ret false)
        (after_calls w calls).
Proof.
  intros Hg Hf He. unfold kickMember. run_action. rewrite Hg, Hf, He.
  unfold after_calls.
  destruct sendInvite.
  - destruct (env_invite env) as [url|]; [destruct (env_dm env)|];
      cbn [storage wsClients discord]; rewrite <- ?app_assoc;
      eexists; reflexivity.
  - destruct (truthy reason); [destruct (env_dm env)|];
      cbn [storage wsClients discord]; rewrite <- ?app_assoc;
      eexists; reflexivity.
Qed.

(** Building blocks that leave the kick log alone. *)
Lemma keeps_kickLogs_ret {A} (a : A) : keeps_kickLogs (ret a).
Proof. by intros w. Qed.

Lemma keeps_kickLogs_call {A} c (outcome : Completion A) :
  keeps_kickLogs (call c outcome).
Proof. by intros w. Qed.

Lemma keeps_kickLogs_bind {A B} (c : M MemStorage A) (k : A → M MemStorage B) :
  keeps_kickLogs c → (∀ a, keeps_kickLogs (k a)) → keeps_kickLogs (bind c k).
Proof.
  intros Hc Hk w. unfold bind. specialize (Hc w).
  destruct (c w) as [[a|] w']; [|done]. cbn [snd] in Hc.
  by rewrite Hk.
Qed.

Lemma keeps_kickLogs_try_catch {A} (c h : M MemStorage A) :
  keeps_kickLogs c → keeps_kickLogs h → keeps_kickLogs (try_catch c h).
Proof.
  intros Hc Hh w. unfold try_catch. specialize (Hc w).
  destruct (c w) as [[a|] w']; [done|]. cbn [snd] in Hc.
  by rewrite Hh.
Qed.

Lemma keeps_kickLogs_broadcastUpdate type data :
  keeps_kickLogs (broadcastUpdate type data).
Proof.
  intros w. unfold broadcastUpdate. by destruct (forEach_send _ _).
Qed.

Lemma keeps_kickLogs_deleteMember id now :
  keeps_kickLogs (on_storage (deleteMember id now)).
Proof.
  intros w. unfold on_storage.
  change (deleteMember id now (storage w))
    with (returns (MemStorage.deleteMember id now) (storage w)).
  unfold returns, MemStorage.deleteMember.
  by destruct (members (storage w) !! id).
Qed.

Ltac keeps_kickLogs_step :=
  first
    [ apply keeps_kickLogs_ret
    | apply keeps_kickLogs_call
    | apply keeps_kickLogs_broadcastUpdate
    | apply keeps_kickLogs_deleteMember
    | apply keeps_kickLogs_try_catch
    | apply keeps_kickLogs_bind; [|intros ?]
    | match goal with
      | |- keeps_kickLogs (match ?x with _ => _ end) => destruct x
      end ].

(** [banMember] leaves the kick log as it finds it, on every input. *)
Lemma banMember_keeps_kickLogs memberId bannedBy reason sendInvite env :
  keeps_kickLogs (banMember memberId bannedBy reason sendInvite env).
Proof.
  unfold banMember, mbind, M_bind. repeat keeps_kickLogs_step.
Qed.

(** C2 fails on [banMember].  On the same member, with every Discord
    request succeeding, [kickMember] returns [true] with one entry in the
    kick log, the member deleted and [memberKicked] received;
    [banMember] returns [true] with the member deleted and [memberBanned]
    received, and the log is still empty. *)
Theorem banMember_writes_no_log_entry :
  (let r := kickMember "a" "web-dashboard" (Some "spam") false env_ok
              (world_of store_a [ws_ok]) in
   r.1 = Returns true ∧
   values (kickLogs (storage r.2))
     = [mkKickLog "u1" "a" "web-dashboard" (Some "spam") (Some 100000000)] ∧
   members (storage r.2) !! "a" = None ∧
   List.map received (wsClients r.2)
     = [[mkEnvelope "memberKicked" (DataIdReason "a" (Some "spam"))]]) ∧
  (let r := banMember "a" "web-dashboard" (Some "spam") false env_ok
              (world_of store_a [ws_ok]) in
   r.1 = Returns true ∧
   values (kickLogs (storage r.2)) = [] ∧
   members (storage r.2) !! "a" = None ∧
   List.map received (wsClients r.2)
     = [[mkEnvelope "memberBanned" (DataIdReason "a" (Some "spam"))]]).
Proof. vm_compute. repeat split. Qed.

(* ===================================================================== *)
(** * The message filter *)
(* ===================================================================== *)

(** C3, as stated, fails.  The message of a member matches the blocked term
    ["ass"]; the removal request, the only request made, throws; the
    handler returns and the one registered, [OPEN] socket has received
    nothing. *)
Lemma no_messageFiltered_when_removal_fails :
  containsBlockedWord (MemStorage.getAllBlockedWords store_a)
                      (msg_content message_mass) = true ∧
  msg_author_bot message_mass = false ∧
  (let r := on_MessageCreate message_mass env_delete_fails
              (world_of store_a [ws_ok]) in
   r.1 = Returns tt ∧
   discord r.2 = [CallMessageDelete "mass production"] ∧
   List.map received (wsClients r.2) = [[]]).
Proof. vm_compute. repeat split. Qed.

(** C3, amended.  For a message that is not from a bot and matches a
    blocked term read from the store: when the removal request succeeds,
    [messageFiltered] with the author's id and name, the content and the
    time is published to the registry whether the notice to the channel goes
    through or not; when the removal request fails, the handler stops there:
    no notice is requested, and store and sockets are as they were. *)
Theorem messageFiltered_published_after_removal
    {St : Type} `{IStorage St}
    (message : Message) (env : FilterEnv) (w : World St)
    (words : list BlockedWord) :
  msg_author_bot message = false →
  getAllBlockedWords (storage w) = (Returns words, storage w) →
  containsBlockedWord words (msg_content message) = true →
  (f_delete env = Returns tt →
     on_MessageCreate message env w =
       (Returns tt,
        (broadcastUpdate "messageFiltered"
           (DataFiltered (msg_author_id message) (msg_author_username message)
                         (msg_content message) (f_now env))
           (after_calls w [CallMessageDelete (msg_content message);
                           CallChannelSend (filter_notice message)])).2)) ∧
  (f_delete env = Throws →
     on_MessageCreate message env w =
       (Returns tt, after_calls w [CallMessageDelete (msg_content message)])).
Proof.
  intros Hbot Hwords Hmatch. unfold on_MessageCreate, handleMessageFilter.
  rewrite Hbot. run_action. rewrite Hwords. cbn [storage wsClients discord].
  rewrite Hmatch. split; intros Hdel; rewrite Hdel.
  - unfold after_calls. cbn [storage wsClients discord].
    rewrite <- app_assoc. cbn [app].
    destruct (f_channel_send env) as [[]|];
      cbn [storage wsClients discord];
      by destruct (broadcastUpdate _ _ _) as [[[]|] w'].
  - reflexivity.
Qed.

Lemma messageFiltered_published_after_removal_witness :
  on_MessageCreate message_mass env_notice_fails (world_of store_a [ws_ok]) =
    (Returns tt,
     (broadcastUpdate "messageFiltered"
        (DataFiltered "a" "ann" "mass production" 100000000)
        (after_calls (world_of store_a [ws_ok])
           [CallMessageDelete "mass production";
            CallChannelSend (filter_notice message_mass)])).2).
Proof.
  apply (messageFiltered_published_after_removal message_mass env_notice_fails
           (world_of store_a [ws_ok]) (MemStorage.getAllBlockedWords store_a));
    [reflexivity | reflexivity | vm_compute; reflexivity | reflexivity].
Defined.

(** A message that matches no blocked term, or that a bot wrote, changes
    nothing. *)
Lemma on_MessageCreate_no_match {St : Type} `{IStorage St}
    message env (w : World St) words :
  msg_author_bot message = true ∨
  (getAllBlockedWords (storage w) = (Returns words, storage w) ∧
   containsBlockedWord words (msg_content message) = false) →
  on_MessageCreate message env w = (Returns tt, w).
Proof.
  unfold on_MessageCreate, handleMessageFilter. destruct w as [s l d].
  intros [Hbot | [Hwords Hno]].
  - by rewrite Hbot.
  - destruct (msg_author_bot message); [done|].
    cbn [storage] in Hwords. run_action. rewrite Hwords. by rewrite Hno.
Qed.

(* ===================================================================== *)
(** * Snapshot sync *)
(* ===================================================================== *)

Lemma sync_loop_store clk i l (w : World MemStorage) :
  sync_loop clk i l w =
    (Returns tt, {| storage := sync_store clk i l (storage w);
                    wsClients := wsClients w; discord := discord w |}).
Proof.
  revert i w. induction l as [|gm l IH]; intros i w; cbn [sync_loop sync_store].
  - by destruct w.
  - destruct (usr_bot (gm_user gm)); [apply IH|].
    run_action.
    change (createMember (sync_record gm) (clk i) (storage w))
      with (returns (MemStorage.createMember (sync_record gm) (clk i)) (storage w)).
    unfold returns, MemStorage.createMember. cbn [snd]. by rewrite IH.
Qed.

Lemma syncMembers_store guild fetched clk (w : World MemStorage) :
  storage (syncMembers guild fetched clk w).2 =
    match guild, fetched with
    | Some _, Returns l => sync_store clk 0 l (storage w)
    | _, _ => storage w
    end.
Proof.
  unfold syncMembers. run_action.
  destruct guild as [g|]; [|done].
  destruct fetched as [l|]; [|done].
  by rewrite sync_loop_store.
Qed.

(** Recomputing after replacing the member map forgets the member map and
    the member counts that were there. *)
Lemma recount_over_recount t t0 X Y s :
  MemStorage.updateMemberCount t
    (MemStorage.set_members X
       (MemStorage.updateMemberCount t0 (MemStorage.set_members Y s)))
    = MemStorage.updateMemberCount t (MemStorage.set_members X s).
Proof. reflexivity. Qed.

Lemma sync_store_shape clk i l s :
  sync_store clk i l s =
    match last_clock clk i l None with
    | None => s
    | Some t =>
        MemStorage.updateMemberCount t
          (MemStorage.set_members (sync_batch clk i l (members s)) s)
    end.
Proof.
  assert (G : ∀ l i s t0 Y,
    sync_store clk i l
      (MemStorage.updateMemberCount t0 (MemStorage.set_members Y s)) =
      match last_clock clk i l (Some t0) with
      | Some t =>
          MemStorage.updateMemberCount t
            (MemStorage.set_members (sync_batch clk i l Y) s)
      | None => s
      end).
  { clear. induction l as [|gm l IH]; intros i s t0 Y;
      cbn [sync_store sync_batch last_clock]; [done|].
    destruct (usr_bot (gm_user gm)); [apply IH|].
    unfold MemStorage.createMember. cbn [snd]. rewrite recount_over_recount.
    cbn [members MemStorage.set_members MemStorage.updateMemberCount].
    change (m_id (MemStorage.new_member (sync_record gm) (clk i)))
      with (gm_id gm).
    apply (IH (S i) s (clk i)). }
  revert i s. induction l as [|gm l IH]; intros i s;
    cbn [sync_store sync_batch last_clock]; [done|].
  destruct (usr_bot (gm_user gm)); [apply IH|].
  unfold MemStorage.createMember. cbn [snd].
  change (m_id (MemStorage.new_member (sync_record gm) (clk i)))
    with (gm_id gm).
  apply G.
Qed.

Lemma last_clock_None clk clk' i i' l t t' :
  (t = None ↔ t' = None) →
  (last_clock clk i l t = None ↔ last_clock clk' i' l t' = None).
Proof.
  revert i i' t t'. induction l as [|gm l IH]; intros i i' t t' H;
    cbn [last_clock]; [done|].
  destruct (usr_bot (gm_user gm)); apply IH; [done|]. by split.
Qed.

Lemma sync_batch_None clk clk' i i' l (acc acc' : gmap string DiscordMember) k :
  (acc !! k = None ↔ acc' !! k = None) →
  (sync_batch clk i l acc !! k = None ↔ sync_batch clk' i' l acc' !! k = None).
Proof.
  revert i i' acc acc'. induction l as [|gm l IH]; intros i i' acc acc' H;
    cbn [sync_batch]; [done|].
  destruct (usr_bot (gm_user gm)); apply IH; [done|].
  destruct (decide (gm_id gm = k)) as [->|Hne].
  - by rewrite !lookup_insert_eq.
  - by rewrite !lookup_insert_ne.
Qed.

Lemma sync_batch_union clk i l (A B : gmap string DiscordMember) :
  sync_batch clk i l (A ∪ B) = sync_batch clk i l A ∪ B.
Proof.
  revert i A. induction l as [|gm l IH]; intros i A; cbn [sync_batch]; [done|].
  destruct (usr_bot (gm_user gm)); [apply IH|].
  by rewrite insert_union_l, IH.
Qed.

(** A second pass overwrites what the first one wrote. *)
Lemma sync_batch_overwrites clk1 clk2 i j l (M : gmap string DiscordMember) :
  sync_batch clk2 i l (sync_batch clk1 j l M) = sync_batch clk2 i l M.
Proof.
  assert (U : ∀ clk n X, sync_batch clk n l X = sync_batch clk n l ∅ ∪ X).
  { intros clk n X. rewrite <- (sync_batch_union clk n l ∅ X).
    by rewrite (left_id_L ∅ (∪)). }
  rewrite (U clk2 i (sync_batch clk1 j l M)), (U clk1 j M), (U clk2 i M).
  apply map_eq. intros k. rewrite !lookup_union.
  destruct (sync_batch clk2 i l ∅ !! k) as [m|] eqn:E2.
  - by destruct (sync_batch clk1 j l ∅ !! k), (M !! k).
  - assert (E1 : sync_batch clk1 j l ∅ !! k = None)
      by (by apply (sync_batch_None clk1 clk2 j i l ∅ ∅ k)).
    rewrite E1. by destruct (M !! k).
Qed.

Lemma sync_batch_without_clock clk clk' i i' l
    (acc acc' : gmap string DiscordMember) :
  without_clock <$> acc = without_clock <$> acc' →
  without_clock <$> sync_batch clk i l acc
    = without_clock <$> sync_batch clk' i' l acc'.
Proof.
  revert i i' acc acc'. induction l as [|gm l IH]; intros i i' acc acc' H;
    cbn [sync_batch]; [done|].
  destruct (usr_bot (gm_user gm)); apply IH; [done|].
  rewrite !fmap_insert. by rewrite H.
Qed.

Lemma last_clock_Some clk i l t : last_clock clk i l (Some t) ≠ None.
Proof.
  revert i t. induction l as [|gm l IH]; intros i t; cbn [last_clock]; [done|].
  destruct (usr_bot (gm_user gm)); apply IH.
Qed.

Lemma sync_store_members clk i l s :
  members (sync_store clk i l s) = sync_batch clk i l (members s).
Proof.
  rewrite sync_store_shape.
  destruct (last_clock clk i l None) eqn:E; [done|].
  clear -E. revert i E. induction l as [|gm l IH]; intros i E;
    cbn [sync_batch last_clock] in *; [done|].
  destruct (usr_bot (gm_user gm)); [by apply IH|].
  by apply last_clock_Some in E.
Qed.

Lemma sync_store_twice clk1 clk2 l s :
  sync_store clk2 0 l (sync_store clk1 0 l s) = sync_store clk2 0 l s.
Proof.
  rewrite (sync_store_shape clk2 0 l (sync_store _ _ _ _)).
  rewrite (sync_store_shape clk2 0 l s).
  destruct (last_clock clk2 0 l None) as [t2|] eqn:E2.
  - rewrite sync_store_members, sync_batch_overwrites.
    rewrite (sync_store_shape clk1).
    by destruct (last_clock clk1 0 l None).
  - rewrite (sync_store_shape clk1).
    apply (last_clock_None clk2 clk1 0 0 l None None) in E2; [|done].
    by rewrite E2.
Qed.

(** C5, as stated, fails.  The guild has one member and nothing changes
    upstream; the first sync runs at time [1000] and the second at time
    [2000]: the stored record then carries [lastSeen = 2000] instead of
    [1000], and the store is not what one sync left. *)
Lemma syncMembers_twice_moves_lastSeen :
  let once := (syncMembers (Some guild0) (Returns [member_a]) (λ _, 1000)
                 (world_of (MemStorage.constructor 0) [])).2 in
  let twice := (syncMembers (Some guild0) (Returns [member_a]) (λ _, 2000)
                  once).2 in
  m_lastSeen <$> members (storage once) !! "a" = Some (Some 1000) ∧
  m_lastSeen <$> members (storage twice) !! "a" = Some (Some 2000) ∧
  storage twice ≠ storage once.
Proof.
  cbv zeta. split; [vm_compute; reflexivity|].
  split; [vm_compute; reflexivity|].
  intros H. apply (f_equal (λ s, m_lastSeen <$> members s !! "a")) in H.
  vm_compute in H. discriminate H.
Qed.

(** C5, amended.  With unchanged upstream members, a second snapshot sync
    leaves the store exactly as a single sync run at the time of the second
    one would; hence two syncs that read the same clock leave what one
    leaves, and in general the member map after two syncs agrees with the
    map after one on every field of every record except [joinedServerAt],
    [joinedAt] and [lastSeen], which the store takes from its clock. *)
Theorem syncMembers_twice_is_later_sync
    (guild : option Guild) (fetched : Completion (list GuildMember))
    (clk1 clk2 : nat → Z) (w : World MemStorage) :
  let once := (syncMembers guild fetched clk1 w).2 in
  let twice := (syncMembers guild fetched clk2 once).2 in
  storage twice = storage (syncMembers guild fetched clk2 w).2 ∧
  storage (syncMembers guild fetched clk1 once).2 = storage once ∧
  without_clock <$> members (storage twice)
    = without_clock <$> members (storage once).
Proof.
  cbv zeta. rewrite !syncMembers_store.
  destruct guild as [g|]; [|done].
  destruct fetched as [l|]; [|done].
  split; [apply sync_store_twice|].
  split; [apply sync_store_twice|].
  rewrite sync_store_twice, !sync_store_members.
  by apply sync_batch_without_clock.
Qed.

(* ===================================================================== *)
(** * The store: lookups, defaults and missing members *)
(* ===================================================================== *)

Lemma includes_role_In roles roleId :
  includes_role roles roleId = true ↔ In roleId roles.
Proof.
  unfold includes_role. rewrite existsb_exists. split.
  - intros (x & Hin & Hx). apply String.eqb_eq in Hx. by subst.
  - intros Hin. exists roleId. split; [done | apply String.eqb_refl].
Qed.

(** X1. A mutation aimed at an id that is not in the store reports "not
    found" — [undefined] from [updateMember], [updateMemberCash],
    [addMemberCash], [addMemberRole] and [removeMemberRole], [false] from
    [deleteMember] — and leaves the store, aggregate included, exactly as
    it was; the two cash routes then answer 404. *)
Theorem mutation_of_absent_member_changes_nothing
    (id : string) (s : MemStorage) (now : Z) :
  members s !! id = None →
  (∀ u, MemStorage.updateMember id u now s = (None, s)) ∧
  (∀ amount, MemStorage.updateMemberCash id amount now s = (None, s)) ∧
  (∀ amount, MemStorage.addMemberCash id amount now s = (None, s)) ∧
  (∀ roleId, MemStorage.addMemberRole id roleId now s = (None, s)) ∧
  (∀ roleId, MemStorage.removeMemberRole id roleId now s = (None, s)) ∧
  MemStorage.deleteMember id now s = (false, s) ∧
  (∀ n, 0 ≤ n →
     put_member_cash id (JNumber n) now s
       = ((404, BodyError "Member not found"), s)) ∧
  (∀ n, post_member_cash_add id (JNumber n) now s
          = ((404, BodyError "Member not found"), s)).
Proof.
  intros Hm.
  unfold MemStorage.updateMember, MemStorage.updateMemberCash,
    MemStorage.addMemberCash, MemStorage.addMemberRole,
    MemStorage.removeMemberRole, MemStorage.deleteMember.
  rewrite Hm. repeat (split; [done|]). split.
  - intros n Hn. unfold put_member_cash, updateCashSchema.
    apply Z.leb_le in Hn. rewrite Hn.
    change (updateMemberCash id n now s)
      with (returns (MemStorage.updateMemberCash id n now) s).
    unfold returns, MemStorage.updateMemberCash. by rewrite Hm.
  - intros n. unfold post_member_cash_add, addCashSchema.
    change (addMemberCash id n now s)
      with (returns (MemStorage.addMemberCash id n now) s).
    unfold returns, MemStorage.addMemberCash. by rewrite Hm.
Qed.

Lemma mutation_of_absent_member_changes_nothing_witness :
  MemStorage.addMemberRole "ghost" "r1" 100000000 stale_store
    = (None, stale_store) ∧
  put_member_cash "ghost" (JNumber 5) 100000000 stale_store
    = ((404, BodyError "Member not found"), stale_store).
Proof.
  assert (H : members stale_store !! "ghost" = None)
    by (vm_compute; reflexivity).
  pose proof (mutation_of_absent_member_changes_nothing _ _ 100000000 H)
    as (_ & _ & _ & Hrole & _ & _ & Hput & _).
  split; [apply Hrole | apply Hput; lia].
Defined.


(** X3. [deleteMember] of a stored member returns [true]; afterwards
    [getMember] finds nothing under the id, every other record is as
    before, the store holds one record fewer, and the kick log is
    untouched: entries that name the member stay. *)
Theorem deleteMember_removes_that_member
    (id : string) (m : DiscordMember) (now : Z) (s : MemStorage) :
  members s !! id = Some m →
  let r := MemStorage.deleteMember id now s in
  r.1 = true ∧
  MemStorage.getMember id r.2 = None ∧
  (∀ k, k ≠ id → MemStorage.getMember k r.2 = MemStorage.getMember k s) ∧
  size (members s) = S (size (members r.2)) ∧
  kickLogs r.2 = kickLogs s.
Proof.
  intros Hm. cbv zeta. rewrite (deleteMember_found _ _ _ _ Hm).
  unfold MemStorage.getMember. cbn [fst snd members kickLogs
    MemStorage.updateMemberCount MemStorage.set_members].
  split; [done|]. split; [apply lookup_delete_eq|].
  split; [intros k Hk; by apply lookup_delete_ne|].
  split; [|done].
  rewrite <- (insert_delete_id (members s) id m Hm) at 1.
  apply map_size_insert_None, lookup_delete_eq.
Qed.

Lemma deleteMember_removes_that_member_witness :
  (MemStorage.deleteMember "a" 100000000 stale_store).1 = true ∧
  MemStorage.getMember "a" (MemStorage.deleteMember "a" 100000000 stale_store).2
    = None.
Proof.
  assert (H : members stale_store !! "a" = Some stale_member)
    by (vm_compute; reflexivity).
  pose proof (deleteMember_removes_that_member _ _ 100000000 _ H)
    as (Htrue & Hgone & _).
  split; [apply Htrue | apply Hgone].
Defined.

(* ===================================================================== *)
(** * The store: balances *)
(* ===================================================================== *)




Lemma values_delete {A} (m : gmap string A) id x :
  m !! id = Some x → values m ≡ₚ x :: values (delete id m).
Proof.
  intros H. unfold values.
  by rewrite <- (map_to_list_delete m id x H).
Qed.

Lemma values_insert {A} (m : gmap string A) id y :
  values (<[id := y]> m) ≡ₚ y :: values (delete id m).
Proof.
  unfold values. rewrite <- (insert_delete_eq m).
  by rewrite map_to_list_insert by apply lookup_delete_eq.
Qed.







(* ===================================================================== *)
(** * The store: role tags *)
(* ===================================================================== *)




Lemma roles_after_add id roleId now s m :
  members s !! id = Some m →
  m_roles <$> members (MemStorage.addMemberRole id roleId now s).2 !! id
    = Some (if includes_role (m_roles m) roleId then m_roles m
            else (m_roles m ++ [roleId])%list).
Proof.
  intros Hm. rewrite (addMemberRole_found _ _ _ _ _ Hm).
  cbn [snd members MemStorage.set_members]. by rewrite lookup_insert_eq.
Qed.


(** X6. [addMemberRole] on a stored member treats the tag list as a set
    built by appending: afterwards the tags are the old ones and the new
    one, the old list is kept as a prefix, a list without repetitions
    stays without repetitions, and adding the same tag again changes no
    tag. *)
Theorem addMemberRole_adds_once
    (id : string) (m : DiscordMember) (roleId : string) (now : Z)
    (s : MemStorage) :
  members s !! id = Some m →
  let s' := (MemStorage.addMemberRole id roleId now s).2 in
  ∃ m', members s' !! id = Some m' ∧
    (∀ x, In x (m_roles m') ↔ x = roleId ∨ In x (m_roles m)) ∧
    m_roles m `prefix_of` m_roles m' ∧
    (List.NoDup (m_roles m) → List.NoDup (m_roles m')) ∧
    (∀ now',
       m_roles <$> members (MemStorage.addMemberRole id roleId now' s').2 !! id
         = Some (m_roles m')).
Proof.
  intros Hm s'. subst s'.
  rewrite (addMemberRole_found _ _ _ _ _ Hm). cbn [snd].
  eexists. split; [cbn; apply lookup_insert_eq|].
  cbn [touched m_roles].
  destruct (includes_role (m_roles m) roleId) eqn:Hinc.
  - apply includes_role_In in Hinc.
    split; [|split; [|split]].
    + intros x. split; [by right|]. by intros [->|Hx].
    + done.
    + done.
    + intros now'.
      erewrite roles_after_add; [|cbn; apply lookup_insert_eq].
      cbn [touched m_roles].
      apply includes_role_In in Hinc. by rewrite Hinc.
  - assert (Hnot : ¬ In roleId (m_roles m)).
    { intros Hin. apply includes_role_In in Hin. congruence. }
    split; [|split; [|split]].
    + intros x. rewrite in_app_iff. cbn. split.
      * intros [Hx|[<-|[]]]; auto.
      * intros [->|Hx]; auto.
    + by eexists.
    + intros Hnd. apply List.NoDup_app; [done| |].
      * constructor; [intros []|constructor].
      * intros a Ha [<-|[]]. done.
    + intros now'.
      erewrite roles_after_add; [|cbn; apply lookup_insert_eq].
      cbn [touched m_roles].
      assert (Hinc' : includes_role (m_roles m ++ [roleId]) roleId = true).
      { apply includes_role_In, in_app_iff. right. by left. }
      by rewrite Hinc'.
Qed.

Lemma addMemberRole_adds_once_witness :
  ∃ m', members (MemStorage.addMemberRole "a" "vip" 5 stale_store).2 !! "a"
          = Some m' ∧
        In "vip" (m_roles m').
Proof.
  assert (H : members stale_store !! "a" = Some stale_member)
    by (vm_compute; reflexivity).
  destruct (addMemberRole_adds_once "a" stale_member "vip" 5 stale_store H)
    as (m' & Hm' & Hin & _).
  exists m'. split; [exact Hm'|]. apply Hin. by left.
Defined.



(* ===================================================================== *)
(** * The store: invariants of the mutating methods *)
(* ===================================================================== *)





Lemma filter_length_Permutation {A} (f : A → bool) (l1 l2 : list A) :
  l1 ≡ₚ l2 → length (List.filter f l1) = length (List.filter f l2).
Proof.
  induction 1 as [|x l1 l2 _ IH|x y l|l1 l2 l3 _ IH1 _ IH2]; cbn.
  - done.
  - destruct (f x); cbn; by rewrite IH.
  - by destruct (f x), (f y).
  - by rewrite IH1.
Qed.

Lemma filter_length_le {A} (f : A → bool) (l : list A) :
  (length (List.filter f l) ≤ length l)%nat.
Proof.
  induction l as [|x l IH]; cbn; [done|]. destruct (f x); cbn; lia.
Qed.

Lemma counts_exact_recount now s :
  counts_exact (MemStorage.updateMemberCount now s).
Proof.
  unfold counts_exact. cbn. rewrite length_values.
  split; [done|]. split; [done|].
  pose proof (filter_length_le (seen_today now) (values (members s))) as Hle.
  rewrite length_values in Hle. lia.
Qed.

Lemma counts_exact_replace id m m' s :
  members s !! id = Some m → is_online m' = is_online m →
  counts_exact s →
  counts_exact (MemStorage.set_members (<[id := m']> (members s)) s).
Proof.
  intros Hm Hon (Ht & Ho & Ha). unfold counts_exact.
  cbn [members stats MemStorage.set_members].
  rewrite map_size_insert_Some by by rewrite Hm.
  split; [done|]. split; [|done].
  rewrite Ho.
  rewrite (filter_length_Permutation _ _ _ (values_insert (members s) id m')).
  rewrite (filter_length_Permutation _ _ _ (values_delete (members s) id m Hm)).
  cbn [List.filter]. rewrite Hon. by destruct (is_online m).
Qed.

Lemma counts_exact_step s op : counts_exact s → counts_exact (store_step s op).
Proof.
  intros Hc.
  destruct op as [i now|id u now|id now|id a now|id a now|id r now|id r now
                 |l uuid now|w uuid now|id| |now]; cbn [store_step].
  - apply counts_exact_recount.
  - destruct (members s !! id) as [m|] eqn:Hm.
    + rewrite (updateMember_found _ _ _ _ _ Hm). apply counts_exact_recount.
    + unfold MemStorage.updateMember. by rewrite Hm.
  - destruct (members s !! id) as [m|] eqn:Hm.
    + rewrite (deleteMember_found _ _ _ _ Hm). apply counts_exact_recount.
    + unfold MemStorage.deleteMember. by rewrite Hm.
  - destruct (members s !! id) as [m|] eqn:Hm.
    + rewrite (updateMemberCash_found _ _ _ _ _ Hm). cbn [snd].
      by apply (counts_exact_replace id m).
    + unfold MemStorage.updateMemberCash. by rewrite Hm.
  - destruct (members s !! id) as [m|] eqn:Hm.
    + rewrite (addMemberCash_found _ _ _ _ _ Hm). cbn [snd].
      by apply (counts_exact_replace id m).
    + unfold MemStorage.addMemberCash. by rewrite Hm.
  - destruct (members s !! id) as [m|] eqn:Hm.
    + rewrite (addMemberRole_found _ _ _ _ _ Hm). cbn [snd].
      by apply (counts_exact_replace id m).
    + unfold MemStorage.addMemberRole. by rewrite Hm.
  - destruct (members s !! id) as [m|] eqn:Hm.
    + rewrite (removeMemberRole_found _ _ _ _ _ Hm). cbn [snd].
      by apply (counts_exact_replace id m).
    + unfold MemStorage.removeMemberRole. by rewrite Hm.
  - exact Hc.
  - exact Hc.
  - exact Hc.
  - exact Hc.
  - apply counts_exact_recount.
Qed.

(** X9. In a store whose [totalMembers] and [onlineMembers] are right and
    whose [activeToday] lies between zero and [totalMembers], they stay
    so under every sequence of the mutating methods ([updateStats]
    apart), in particular under the balance and tag mutations that do
    not recompute the aggregate; a store fresh from the constructor is
    such a store. *)
Theorem member_counts_stay_exact (ops : list StoreOp) (s : MemStorage) :
  counts_exact s →
  counts_exact (run_store ops s) ∧
  (∀ now, counts_exact (MemStorage.constructor now)).
Proof.
  intros Hc. split.
  - unfold run_store. revert s Hc.
    induction ops as [|op ops IH]; intros s Hc; cbn [fold_left]; [done|].
    apply IH. by apply counts_exact_step.
  - intros now. unfold counts_exact. cbn.
    rewrite map_size_empty. unfold values. rewrite map_to_list_empty. cbn. lia.
Qed.

Lemma member_counts_stay_exact_witness :
  counts_exact
    (run_store [DoUpdateMemberCash "a" 5 1; DoAddMemberRole "a" "vip" 2;
                DoDeleteMember "a" 3]
               stale_store).
Proof.
  refine (proj1 (member_counts_stay_exact _ stale_store _)).
  unfold counts_exact. vm_compute. repeat split; congruence.
Defined.

Lemma member_op_frame s op :
  member_op op = true →
  kickLogs (store_step s op) = kickLogs s ∧
  blockedWords (store_step s op) = blockedWords s ∧
  recentKicks (stats (store_step s op)) = recentKicks (stats s) ∧
  lastUpdated (stats (store_step s op)) = lastUpdated (stats s).
Proof.
  intros Hop.
  destruct op as [i now|id u now|id now|id a now|id a now|id r now|id r now
                 |l uuid now|w uuid now|id| |now];
    try discriminate Hop; cbn [store_step].
  - done.
  - unfold MemStorage.updateMember. by destruct (members s !! id).
  - unfold MemStorage.deleteMember. by destruct (members s !! id).
  - unfold MemStorage.updateMemberCash. by destruct (members s !! id).
  - unfold MemStorage.addMemberCash. by destruct (members s !! id).
  - unfold MemStorage.addMemberRole. by destruct (members s !! id).
  - unfold MemStorage.removeMemberRole. by destruct (members s !! id).
  - done.
Qed.

Lemma other_op_frame s op :
  member_op op = false →
  members (store_step s op) = members s ∧
  totalMembers (stats (store_step s op)) = totalMembers (stats s) ∧
  onlineMembers (stats (store_step s op)) = onlineMembers (stats s) ∧
  activeToday (stats (store_step s op)) = activeToday (stats s).
Proof.
  intros Hop.
  by destruct op as [i now|id u now|id now|id a now|id a now|id r now|id r now
                    |l uuid now|w uuid now|id| |now];
    try discriminate Hop.
Qed.

(** X10. The member methods and the other mutating methods work on
    separate parts of the store: a sequence of member calls leaves the
    kick log, the blocked words, [recentKicks] and [lastUpdated] as they
    were, and a sequence of kick-log and blocked-word calls leaves the
    members and the three member counts as they were. *)
Theorem member_calls_and_other_calls_are_separate
    (ops : list StoreOp) (s : MemStorage) :
  (forallb member_op ops = true →
   kickLogs (run_store ops s) = kickLogs s ∧
   blockedWords (run_store ops s) = blockedWords s ∧
   recentKicks (stats (run_store ops s)) = recentKicks (stats s) ∧
   lastUpdated (stats (run_store ops s)) = lastUpdated (stats s)) ∧
  (forallb (fun op => negb (member_op op)) ops = true →
   members (run_store ops s) = members s ∧
   totalMembers (stats (run_store ops s)) = totalMembers (stats s) ∧
   onlineMembers (stats (run_store ops s)) = onlineMembers (stats s) ∧
   activeToday (stats (run_store ops s)) = activeToday (stats s)).
Proof.
  unfold run_store. revert s.
  induction ops as [|op ops IH]; intros s; cbn [fold_left forallb]; [done|].
  destruct (IH (store_step s op)) as [IH1 IH2].
  split; intros [Hop Hops]%andb_true_iff.
  - destruct (IH1 Hops) as (-> & -> & -> & ->).
    by apply member_op_frame.
  - destruct (IH2 Hops) as (-> & -> & -> & ->).
    apply other_op_frame. by apply negb_true_iff.
Qed.

Lemma member_calls_and_other_calls_are_separate_witness :
  let ops := [DoAddMemberCash "a" 5 1; DoDeleteMember "a" 2;
              DoRemoveAllMembers 3] in
  kickLogs (run_store ops store_a) = kickLogs store_a ∧
  blockedWords (run_store ops store_a) = blockedWords store_a ∧
  recentKicks (stats (run_store ops store_a)) = recentKicks (stats store_a) ∧
  lastUpdated (stats (run_store ops store_a)) = lastUpdated (stats store_a).
Proof.
  exact (proj1 (member_calls_and_other_calls_are_separate
                  [DoAddMemberCash "a" 5 1; DoDeleteMember "a" 2;
                   DoRemoveAllMembers 3] store_a) eq_refl).
Defined.

(* ===================================================================== *)
(** * Sorting into descending order *)
(* ===================================================================== *)






(* ===================================================================== *)
(** * The store: the kick log *)
(* ===================================================================== *)

(** X11. [createKickLog] files the entry it returns under the fresh
    identifier, stamped with the time of the call and with an empty
    reason turned into [null]; it keeps every other entry, the members and
    the blocked words, does not ask whether the member is stored, and
    leaves [recentKicks] at a number from one up to the number of
    entries. *)
Theorem createKickLog_files_the_entry
    (insertLog : InsertKickLog) (uuid : string) (now : Z) (s : MemStorage) :
  let r := MemStorage.createKickLog insertLog uuid now s in
  kickLogs r.2 !! uuid = Some r.1 ∧
  (∀ id, id ≠ uuid → kickLogs r.2 !! id = kickLogs s !! id) ∧
  k_memberId r.1 = ik_memberId insertLog ∧
  k_kickedBy r.1 = ik_kickedBy insertLog ∧
  k_kickedAt r.1 = Some now ∧
  (ik_reason insertLog = Some "" → k_reason r.1 = None) ∧
  members r.2 = members s ∧
  blockedWords r.2 = blockedWords s ∧
  1 ≤ recentKicks (stats r.2) ≤ Z.of_nat (size (kickLogs r.2)).
Proof.
  cbn -[after_dayAgo].
  split; [apply lookup_insert_eq|].
  split; [intros id Hne; by apply lookup_insert_ne|].
  do 3 (split; [done|]).
  split; [by intros ->|].
  do 2 (split; [done|]).
  set (log := {| k_id := uuid; k_memberId := ik_memberId insertLog;
                 k_kickedBy := ik_kickedBy insertLog;
                 k_reason := or_null (ik_reason insertLog);
                 k_kickedAt := Some now |}).
  set (logs := <[uuid := log]> (kickLogs s)).
  pose proof (filter_length_le (fun l => after_dayAgo now (k_kickedAt l))
                (values logs)) as Hle.
  rewrite length_values in Hle.
  assert (Hin : In log (values logs)).
  { apply (elem_of_values logs uuid). apply lookup_insert_eq. }
  assert (Hnew : after_dayAgo now (k_kickedAt log) = true).
  { cbn. unfold dayAgo. apply Z.ltb_lt. lia. }
  pose proof (filter_length_pos (fun l => after_dayAgo now (k_kickedAt l))
                _ _ Hin Hnew) as Hpos.
  lia.
Qed.

Lemma kickLogs_step_grows s op id :
  is_Some (kickLogs s !! id) → is_Some (kickLogs (store_step s op) !! id).
Proof.
  intros Hs.
  destruct (member_op op) eqn:Hop.
  - destruct (member_op_frame s op Hop) as (-> & _). done.
  - destruct op as [i now|id0 u now|id0 now|id0 a now|id0 a now|id0 r now
                   |id0 r now|l uuid now|w uuid now|id0| |now];
      try discriminate Hop; cbn; try done.
    destruct (decide (uuid = id)) as [->|Hne].
    + rewrite lookup_insert_eq. by eexists.
    + by rewrite lookup_insert_ne.
Qed.

Lemma kickLogs_step_size s op :
  (size (kickLogs s) ≤ size (kickLogs (store_step s op)))%nat.
Proof.
  destruct (member_op op) eqn:Hop.
  - destruct (member_op_frame s op Hop) as (-> & _). done.
  - destruct op as [i now|id0 u now|id0 now|id0 a now|id0 a now|id0 r now
                   |id0 r now|l uuid now|w uuid now|id0| |now];
      try discriminate Hop; cbn; try done.
    destruct (kickLogs s !! uuid) as [old|] eqn:Hold.
    + rewrite map_size_insert_Some; [done | by rewrite Hold].
    + rewrite map_size_insert_None; [lia | done].
Qed.

(** X12. No mutating method removes a kick-log entry: whatever calls are
    made, an identifier that is in the log stays in the log and the
    number of entries does not go down. *)
Theorem kick_log_only_grows (ops : list StoreOp) (s : MemStorage) :
  (∀ id, is_Some (kickLogs s !! id) →
         is_Some (kickLogs (run_store ops s) !! id)) ∧
  (size (kickLogs s) ≤ size (kickLogs (run_store ops s)))%nat.
Proof.
  unfold run_store. revert s.
  induction ops as [|op ops IH]; intros s; cbn [fold_left]; [done|].
  destruct (IH (store_step s op)) as [IH1 IH2]. split.
  - intros id Hs. apply IH1. by apply kickLogs_step_grows.
  - pose proof (kickLogs_step_size s op). lia.
Qed.




(* ===================================================================== *)
(** * The service: the roles of the guild *)
(* ===================================================================== *)


(* ===================================================================== *)
(** * The store and the routes: blocked words *)
(* ===================================================================== *)

Lemma substring_of_empty (s : string) : substring_of "" s.
Proof. by exists "", s. Qed.

(** X16. A term added with [addBlockedWord] makes the filter match every
    message that contains it, letter case aside, and the empty term makes
    it match every message; after [removeAllBlockedWords] no message
    matches; [removeBlockedWord] answers [true] for the identifier just
    added and undoes the addition, and answers [false] and changes nothing
    for an identifier that is not stored. *)
Theorem blocked_words_life_cycle
    (insertWord : InsertBlockedWord) (uuid : string) (now : Z)
    (s : MemStorage) :
  let added := (MemStorage.addBlockedWord insertWord uuid now s).2 in
  (∀ content,
     substring_of (toLowerCase (ib_word insertWord)) (toLowerCase content) →
     containsBlockedWord (MemStorage.getAllBlockedWords added) content = true) ∧
  (ib_word insertWord = "" →
   ∀ content,
     containsBlockedWord (MemStorage.getAllBlockedWords added) content = true) ∧
  (∀ content,
     containsBlockedWord
       (MemStorage.getAllBlockedWords (MemStorage.removeAllBlockedWords added).2)
       content = false) ∧
  (MemStorage.removeBlockedWord uuid added).1 = true ∧
  blockedWords (MemStorage.removeBlockedWord uuid added).2
    = delete uuid (blockedWords s) ∧
  (∀ id, blockedWords s !! id = None →
         MemStorage.removeBlockedWord id s = (false, s)).
Proof.
  cbn zeta.
  assert (Hstored :
    blockedWords (MemStorage.addBlockedWord insertWord uuid now s).2 !! uuid
      = Some {| b_id := uuid; b_word := ib_word insertWord;
                b_createdAt := Some now;
                b_createdBy := ib_createdBy insertWord |}).
  { cbn. apply lookup_insert_eq. }
  split; [|split; [|split; [|split; [|split]]]].
  - intros content Hsub. by apply (stored_term_matches _ _ _ _ Hstored).
  - intros Hempty content. apply (stored_term_matches _ _ _ _ Hstored).
    cbn [b_word]. rewrite Hempty. apply substring_of_empty.
  - intros content. unfold containsBlockedWord, MemStorage.getAllBlockedWords.
    cbn. unfold values. by rewrite map_to_list_empty.
  - unfold MemStorage.removeBlockedWord. cbn [fst].
    apply bool_decide_eq_true. by rewrite Hstored.
  - cbn. apply delete_insert_eq.
  - intros id Hid. unfold MemStorage.removeBlockedWord.
    rewrite (delete_id _ _ Hid). destruct s. cbn in *. f_equal.
    apply bool_decide_eq_false. rewrite Hid. by intros [x Hx].
Qed.


(* ===================================================================== *)
(** * The routes: adding to a balance *)
(* ===================================================================== *)



(* ===================================================================== *)
(** * The service: what a synchronisation writes *)
(* ===================================================================== *)

Lemma sync_batch_lookup clk i l (acc : gmap string DiscordMember) id :
  (sync_batch clk i l acc !! id = acc !! id ∧
   ∀ gm, In gm l → usr_bot (gm_user gm) = false → gm_id gm ≠ id) ∨
  (∃ gm t, In gm l ∧ usr_bot (gm_user gm) = false ∧ gm_id gm = id ∧
           sync_batch clk i l acc !! id
             = Some (MemStorage.new_member (sync_record gm) t)).
Proof.
  revert i acc. induction l as [|gm0 l IH]; intros i acc; cbn [sync_batch].
  - left. split; [done|]. by intros gm [].
  - destruct (usr_bot (gm_user gm0)) eqn:Hbot.
    + destruct (IH (S i) acc) as [[Heq Hno]|(gm & t & Hin & Hb & Hid & Hl)].
      * left. split; [done|]. intros gm [<-|Hin] Hb; [congruence|].
        by apply Hno.
      * right. exists gm, t. split; [by right | done].
    + destruct (IH (S i) (<[gm_id gm0 :=
                   MemStorage.new_member (sync_record gm0) (clk i)]> acc))
        as [[Heq Hno]|(gm & t & Hin & Hb & Hid & Hl)].
      * destruct (decide (gm_id gm0 = id)) as [Hid|Hne].
        -- right. exists gm0, (clk i). split; [by left|].
           split; [done|]. split; [done|].
           rewrite Heq, <- Hid. apply lookup_insert_eq.
        -- left. split; [by rewrite Heq, lookup_insert_ne|].
           intros gm [<-|Hin] Hb; [done|]. by apply Hno.
      * right. exists gm, t. split; [by right | done].
Qed.

(** X19. A synchronisation that fetched the member list stores, for every
    fetched member that is not a bot, a record built from a fetched member
    of that id, with balance 0 whatever the balance was before; it leaves
    every other stored record, the kick log, the blocked words and the
    sockets as they were, so it deletes nobody and publishes nothing. *)
Theorem syncMembers_overwrites_fetched_members
    (guild : Guild) (fetched : list GuildMember) (clk : nat → Z)
    (w : World MemStorage) :
  let r := syncMembers (Some guild) (Returns fetched) clk w in
  (∀ gm, In gm fetched → usr_bot (gm_user gm) = false →
     ∃ gm' t m,
       In gm' fetched ∧ gm_id gm' = gm_id gm ∧
       m = MemStorage.new_member (sync_record gm') t ∧
       members (storage r.2) !! gm_id gm = Some m ∧ m_cash m = 0) ∧
  (∀ id, (∀ gm, In gm fetched → usr_bot (gm_user gm) = false → gm_id gm ≠ id) →
     members (storage r.2) !! id = members (storage w) !! id) ∧
  kickLogs (storage r.2) = kickLogs (storage w) ∧
  blockedWords (storage r.2) = blockedWords (storage w) ∧
  wsClients r.2 = wsClients w.
Proof.
  cbn zeta.
  pose proof (syncMembers_store (Some guild) (Returns fetched) clk w) as Hs.
  cbn beta iota in Hs. rewrite Hs, sync_store_members.
  split; [|split; [|split; [|split]]].
  - intros gm Hin Hbot.
    destruct (sync_batch_lookup clk 0 fetched (members (storage w)) (gm_id gm))
      as [[_ Hno]|(gm' & t & Hin' & _ & Hid & Hl)].
    + by destruct (Hno gm Hin Hbot).
    + exists gm', t, (MemStorage.new_member (sync_record gm') t).
      by repeat split.
  - intros id Hno.
    destruct (sync_batch_lookup clk 0 fetched (members (storage w)) id)
      as [[Heq _]|(gm' & t & Hin' & Hb & Hid & _)]; [done|].
    by destruct (Hno gm' Hin' Hb).
  - rewrite sync_store_shape. by destruct (last_clock _ _ _ _).
  - rewrite sync_store_shape. by destruct (last_clock _ _ _ _).
  - unfold syncMembers. run_action. rewrite sync_loop_store. done.
Qed.

Lemma syncMembers_overwrites_fetched_members_witness :
  ∃ gm' t m,
    In gm' [member_a] ∧ gm_id gm' = "a" ∧
    m = MemStorage.new_member (sync_record gm') t ∧
    members (storage (syncMembers (Some guild0) (Returns [member_a])
                        (fun _ => 7) (world_of store_a [ws_ok])).2) !! "a"
      = Some m ∧
    m_cash m = 0.
Proof.
  apply (proj1 (syncMembers_overwrites_fetched_members guild0 [member_a]
                  (fun _ => 7) (world_of store_a [ws_ok])) member_a).
  - by left.
  - reflexivity.
Defined.

(* ===================================================================== *)
(** * The service: actions that catch their errors *)
(* ===================================================================== *)

Lemma try_catch_ret {St A} (c : M St A) (a : A) (w : World St) :
  ∃ b, (try_catch c (ret a) w).1 = Returns b.
Proof.
  unfold try_catch, ret. destruct (c w) as [[b|] w']; by eexists.
Qed.

(** X20. Whatever the store and Discord do, [kickMember], [banMember],
    [syncMembers] and the message handler end by returning, never by
    throwing: every failure inside them is caught.  So the kick and ban
    routes never answer 500: they answer 200, or 400. *)
Theorem guarded_actions_never_throw
    {St : Type} `{IStorage St} (w : World St) :
  (∀ id kickedBy reason sendInvite env,
     ∃ b, (kickMember id kickedBy reason sendInvite env w).1 = Returns b) ∧
  (∀ id bannedBy reason sendInvite env,
     ∃ b, (banMember id bannedBy reason sendInvite env w).1 = Returns b) ∧
  (∀ guild fetched clk, (syncMembers guild fetched clk w).1 = Returns tt) ∧
  (∀ message env, (on_MessageCreate message env w).1 = Returns tt) ∧
  (∀ id reason env,
     (post_member_kick id reason env w).1.1 = 200 ∨
     (post_member_kick id reason env w).1.1 = 400) ∧
  (∀ id reason sendInvite env,
     (post_member_ban id reason sendInvite env w).1.1 = 200 ∨
     (post_member_ban id reason sendInvite env w).1.1 = 400).
Proof.
  assert (Hkick : ∀ id kickedBy reason sendInvite env,
    ∃ b, (kickMember id kickedBy reason sendInvite env w).1 = Returns b)
    by (intros; apply try_catch_ret).
  assert (Hban : ∀ id bannedBy reason sendInvite env,
    ∃ b, (banMember id bannedBy reason sendInvite env w).1 = Returns b)
    by (intros; apply try_catch_ret).
  split; [exact Hkick|]. split; [exact Hban|].
  split; [|split; [|split]].
  - intros. unfold syncMembers.
    match goal with
    | |- (try_catch ?c (ret tt) w).1 = _ =>
        destruct (try_catch_ret c tt w) as [[] Hb]; exact Hb
    end.
  - intros. unfold on_MessageCreate.
    destruct (msg_author_bot message); [done|].
    unfold handleMessageFilter.
    match goal with
    | |- (try_catch ?c (ret tt) w).1 = _ =>
        destruct (try_catch_ret c tt w) as [[] Hb]; exact Hb
    end.
  - intros. unfold post_member_kick.
    destruct (kickMemberSchema reason) as [r|]; [|by right].
    destruct (Hkick id "web-dashboard" r false env) as [b Hb].
    destruct (kickMember id "web-dashboard" r false env w) as [c w'].
    cbn [fst] in Hb. subst c. destruct b; [by left | by right].
  - intros. unfold post_member_ban.
    destruct (banMemberSchema reason sendInvite) as [[r i]|]; [|by right].
    destruct (Hban id "web-dashboard" r i env) as [b Hb].
    destruct (banMember id "web-dashboard" r i env w) as [c w'].
    cbn [fst] in Hb. subst c. destruct b; [by left | by right].
Qed.

(* ===================================================================== *)
(** * The service: the answer of a kick *)
(* ===================================================================== *)

Lemma deleteMember_lookup id now s :
  members (MemStorage.deleteMember id now s).2 !! id = None.
Proof.
  unfold MemStorage.deleteMember.
  destruct (members s !! id) eqn:Hm; cbn; [apply lookup_delete_eq | done].
Qed.

Lemma kick_bookkeeping id kickedBy reason uuid now (w : World MemStorage) :
  try_catch
    (on_storage (createKickLog (mkInsertKickLog id kickedBy reason) uuid now);;
     on_storage (deleteMember id now);;
     broadcastUpdate "memberKicked" (DataIdReason id reason);;
     ret true)
    (ret false) w
  = let s1 := (MemStorage.createKickLog
                 (mkInsertKickLog id kickedBy reason) uuid now (storage w)).2 in
    let s2 := (MemStorage.deleteMember id now s1).2 in
    let sent := forEach_send (mkEnvelope "memberKicked" (DataIdReason id reason))
                             (wsClients w) in
    (Returns (match sent.1 with Returns _ => true | Throws => false end),
     {| storage := s2; wsClients := sent.2; discord := discord w |}).
Proof.
  run_action.
  change (createKickLog (mkInsertKickLog id kickedBy reason) uuid now (storage w))
    with (returns (MemStorage.createKickLog
                     (mkInsertKickLog id kickedBy reason) uuid now) (storage w)).
  unfold returns.
  destruct (MemStorage.createKickLog _ _ _ _) as [log s1].
  cbn [storage wsClients discord fst snd].
  change (deleteMember id now s1)
    with (returns (MemStorage.deleteMember id now) s1).
  unfold returns.
  destruct (MemStorage.deleteMember id now s1) as [b s2].
  cbn [storage wsClients discord fst snd].
  unfold broadcastUpdate. cbn [storage wsClients discord].
  by destruct (forEach_send _ _) as [[[]|] l].
Qed.

(** X21. Against the in-memory store [kickMember] answers [true] exactly
    when there is a guild, the member was fetched, the kick request
    succeeded and publishing [memberKicked] did not throw.  When only the
    publishing throws it answers [false] although the member has been
    kicked: the log entry is written and the record is gone. *)
Theorem kickMember_answer
    (id kickedBy : string) (reason : option string) (sendInvite : bool)
    (env : ModerationEnv) (w : World MemStorage) :
  let r := kickMember id kickedBy reason sendInvite env w in
  let sent := forEach_send (mkEnvelope "memberKicked" (DataIdReason id reason))
                           (wsClients w) in
  (r.1 = Returns true ↔
     is_Some (env_guild env) ∧ (∃ gm, env_fetch env = Returns (Some gm)) ∧
     env_enforce env = Returns tt ∧ sent.1 = Returns tt) ∧
  (is_Some (env_guild env) → (∃ gm, env_fetch env = Returns (Some gm)) →
   env_enforce env = Returns tt → sent.1 = Throws →
   r.1 = Returns false ∧
   is_Some (kickLogs (storage r.2) !! env_uuid env) ∧
   members (storage r.2) !! id = None).
Proof.
  cbn zeta.
  assert (Hdone : ∀ g gm,
    env_guild env = Some g → env_fetch env = Returns (Some gm) →
    env_enforce env = Returns tt →
    (kickMember id kickedBy reason sendInvite env w).1
      = Returns (match (forEach_send
                          (mkEnvelope "memberKicked" (DataIdReason id reason))
                          (wsClients w)).1
                 with Returns _ => true | Throws => false end) ∧
    is_Some (kickLogs (storage (kickMember id kickedBy reason sendInvite env w).2)
               !! env_uuid env) ∧
    members (storage (kickMember id kickedBy reason sendInvite env w).2) !! id
      = None).
  { intros g gm Hg Hf He.
    destruct (kickMember_enforced id kickedBy reason sendInvite env w g gm
                Hg Hf He) as [calls ->].
    rewrite kick_bookkeeping. cbn zeta. cbn [fst snd storage wsClients after_calls].
    split; [done|]. split.
    - unfold MemStorage.deleteMember.
      destruct (members _ !! id); cbn; rewrite lookup_insert_eq; by eexists.
    - apply deleteMember_lookup. }
  split.
  - split.
    + intros Hr.
      destruct (env_guild env) as [g|] eqn:Hg.
      2:{ unfold kickMember in Hr. run_action. rewrite Hg in Hr. discriminate Hr. }
      destruct (env_fetch env) as [[gm|]|] eqn:Hf.
      2,3: unfold kickMember in Hr; run_action; rewrite Hg, Hf in Hr;
           discriminate Hr.
      destruct (env_enforce env) as [[]|] eqn:He.
      2:{ unfold kickMember in Hr. run_action. rewrite Hg, Hf, He in Hr.
          destruct sendInvite;
            [destruct (env_invite env); [destruct (env_dm env)|]
            |destruct (truthy reason); [destruct (env_dm env)|]];
            discriminate Hr. }
      destruct (Hdone g gm eq_refl eq_refl eq_refl) as (Hans & _).
      rewrite Hans in Hr.
      split; [by eexists|]. split; [by eexists|]. split; [done|].
      by destruct (forEach_send _ _).1 as [[]|].
    + intros ([g Hg] & [gm Hf] & He & Hsent).
      destruct (Hdone g gm Hg Hf He) as (Hans & _).
      by rewrite Hans, Hsent.
  - intros [g Hg] [gm Hf] He Hsent.
    destruct (Hdone g gm Hg Hf He) as (Hans & Hlog & Hgone).
    rewrite Hans, Hsent. done.
Qed.

Lemma kickMember_answer_witness :
  let r := kickMember "a" "web-dashboard" (Some "spam") false env_ok
             (world_of store_a [ws_broken]) in
  r.1 = Returns false ∧
  is_Some (kickLogs (storage r.2) !! "u1") ∧
  members (storage r.2) !! "a" = None.
Proof.
  apply (proj2 (kickMember_answer "a" "web-dashboard" (Some "spam") false
                  env_ok (world_of store_a [ws_broken]))).
  - by eexists.
  - by eexists.
  - reflexivity.
  - reflexivity.
Defined.

(* ===================================================================== *)
(** * The web-socket registry: where delivery stops *)
(* ===================================================================== *)

(** X22. Publishing walks the registry in order and stops at the first
    open socket whose [send] throws: the open sockets before it have the
    message, that socket and every socket after it have nothing new, and
    the publish ends by throwing. *)
Theorem forEach_send_stops_at_first_failure
    (message : Envelope) (before : list WebSocket) (ws : WebSocket)
    (after : list WebSocket) :
  sends_succeed before = true →
  readyState ws = OPEN → send_throws ws = true →
  forEach_send message (before ++ ws :: after)%list
    = (Throws, (fanout [message] before ++ ws :: after)%list).
Proof.
  intros Hbefore Hopen Hthrows.
  induction before as [|x before IH]; cbn [forEach_send app fanout List.map].
  - by rewrite Hopen, Z.eqb_refl, Hthrows.
  - unfold sends_succeed in Hbefore. cbn [forallb] in Hbefore.
    apply andb_true_iff in Hbefore as [Hx Hbefore].
    unfold fanout in IH. rewrite (IH Hbefore). unfold deliver.
    destruct (readyState x =? OPEN); [|reflexivity].
    destruct (send_throws x); [discriminate Hx | reflexivity].
Qed.

Lemma forEach_send_stops_at_first_failure_witness :
  forEach_send (mkEnvelope "memberLeft" (DataId "a"))
               ([ws_ok; ws_closing] ++ ws_broken :: [ws_ok])%list
    = (Throws,
       (fanout [mkEnvelope "memberLeft" (DataId "a")] [ws_ok; ws_closing]
          ++ ws_broken :: [ws_ok])%list).
Proof.
  apply forEach_send_stops_at_first_failure; reflexivity.
Defined.

(* ===================================================================== *)
(** * The service: gateway events *)
(* ===================================================================== *)




(** X24. When a member leaves, [memberLeft] is published whether or not
    the member was stored; a member that was not stored leaves the store
    as it was.  When a member joins, the stored record has balance 0, no
    tags and status [offline], replacing whatever record was stored under
    that id, and what is published is the object the handler built, not
    the stored record. *)
Theorem join_and_leave_events
    (now : Z) (w : World MemStorage) :
  sends_succeed (wsClients w) = true →
  (∀ id,
     let r := on_GuildMemberRemove id now w in
     r.1 = Returns tt ∧
     wsClients r.2 = fanout [mkEnvelope "memberLeft" (DataId id)] (wsClients w) ∧
     members (storage r.2) !! id = None ∧
     (members (storage w) !! id = None → storage r.2 = storage w)) ∧
  (∀ member,
     let r := on_GuildMemberAdd member now w in
     r.1 = Returns tt ∧
     wsClients r.2
       = fanout [mkEnvelope "memberJoined" (DataInsertMember (join_record member))]
                (wsClients w) ∧
     ∃ m, members (storage r.2) !! gm_id member = Some m ∧
          m_cash m = 0 ∧ m_roles m = [] ∧ m_status m = "offline" ∧
          m_role m = getMemberRole member ∧ m_lastSeen m = Some now).
Proof.
  intros Hsend. split.
  - intros id. cbn zeta. unfold on_GuildMemberRemove. run_action.
    change (deleteMember id now (storage w))
      with (returns (MemStorage.deleteMember id now) (storage w)).
    unfold returns.
    pose proof (deleteMember_lookup id now (storage w)) as Hgone.
    assert (Habsent : members (storage w) !! id = None →
                      (MemStorage.deleteMember id now (storage w)).2 = storage w).
    { intros Hm. unfold MemStorage.deleteMember. by rewrite Hm. }
    destruct (MemStorage.deleteMember id now (storage w)) as [b s'].
    cbn [storage wsClients discord fst snd] in *.
    rewrite broadcastUpdate_fanout by done. done.
  - intros member. cbn zeta. unfold on_GuildMemberAdd. run_action.
    change (createMember (join_record member) now (storage w))
      with (returns (MemStorage.createMember (join_record member) now)
                    (storage w)).
    unfold returns, MemStorage.createMember.
    cbn [storage wsClients discord fst snd].
    rewrite broadcastUpdate_fanout by done.
    split; [done|]. split; [done|].
    eexists. split; [cbn; apply lookup_insert_eq|].
    cbn. split; [done|]. split; [done|]. split; [done|]. split; [|done].
    unfold getMemberRole.
    by destruct (gm_has_Administrator member), (gm_has_KickMembers member).
Qed.

Lemma join_and_leave_events_witness :
  let r := on_GuildMemberRemove "zed" 5 (world_of store_a [ws_ok; ws_closing]) in
  r.1 = Returns tt ∧
  wsClients r.2
    = fanout [mkEnvelope "memberLeft" (DataId "zed")] [ws_ok; ws_closing] ∧
  members (storage r.2) !! "zed" = None ∧
  (members store_a !! "zed" = None → storage r.2 = store_a).
Proof.
  apply (proj1 (join_and_leave_events 5 (world_of store_a [ws_ok; ws_closing])
                  eq_refl) "zed").
Defined.

(* ===================================================================== *)
(** * The routes: a kick from the dashboard *)
(* ===================================================================== *)

Lemma asks_no_invite_ret {St A} (a : A) : asks_no_invite (St := St) (ret a).
Proof. by intros w. Qed.

Lemma asks_no_invite_call {St A} c (outcome : Completion A) :
  (∀ maxAge maxUses, c ≠ CallInviteCreate maxAge maxUses) →
  asks_no_invite (St := St) (call c outcome).
Proof.
  intros Hc w maxAge maxUses. unfold call. cbn [snd discord].
  rewrite in_app_iff. cbn. intros [Hin|[Heq|[]]]; [done|].
  by destruct (Hc maxAge maxUses).
Qed.

Lemma asks_no_invite_on_storage {St A} (method : St → Completion A * St) :
  asks_no_invite (on_storage method).
Proof.
  intros w maxAge maxUses. unfold on_storage.
  by destruct (method (storage w)).
Qed.

Lemma asks_no_invite_broadcastUpdate {St} type data :
  asks_no_invite (St := St) (broadcastUpdate type data).
Proof.
  intros w maxAge maxUses. unfold broadcastUpdate.
  by destruct (forEach_send _ _).
Qed.

Lemma asks_no_invite_bind {St A B} (c : M St A) (k : A → M St B) :
  asks_no_invite c → (∀ a, asks_no_invite (k a)) → asks_no_invite (bind c k).
Proof.
  intros Hc Hk w maxAge maxUses. unfold bind.
  specialize (Hc w maxAge maxUses).
  destruct (c w) as [[a|] w']; cbn [snd] in *; [|done].
  intros Hin. apply Hc. by apply (Hk a).
Qed.

Lemma asks_no_invite_try_catch {St A} (c h : M St A) :
  asks_no_invite c → asks_no_invite h → asks_no_invite (try_catch c h).
Proof.
  intros Hc Hh w maxAge maxUses. unfold try_catch.
  specialize (Hc w maxAge maxUses).
  destruct (c w) as [[a|] w']; cbn [snd] in *; [done|].
  intros Hin. apply Hc. by apply Hh.
Qed.

Ltac asks_no_invite_step :=
  first
    [ apply asks_no_invite_ret
    | apply asks_no_invite_on_storage
    | apply asks_no_invite_broadcastUpdate
    | apply asks_no_invite_call; discriminate
    | apply asks_no_invite_try_catch
    | apply asks_no_invite_bind
    | intros ? ].

Lemma kickMember_without_invite {St : Type} `{IStorage St}
    id kickedBy reason env :
  asks_no_invite (kickMember id kickedBy reason false env).
Proof.
  unfold kickMember, mbind, mret, M_bind, M_ret.
  apply asks_no_invite_try_catch; [|apply asks_no_invite_ret].
  destruct (env_guild env) as [g|]; [|apply asks_no_invite_ret].
  apply asks_no_invite_bind; [apply asks_no_invite_call; discriminate|].
  intros [gm|]; [|apply asks_no_invite_ret].
  apply asks_no_invite_bind.
  - destruct (truthy reason); repeat asks_no_invite_step.
  - repeat asks_no_invite_step.
Qed.

(** X25. [POST /api/members/:id/kick] answers 400 and touches nothing
    when [reason] is present and not a string.  With a valid body it never
    asks Discord for an invite, whatever the store and Discord do, and it
    answers 200 exactly when [kickMember] for [web-dashboard] answered
    [true]. *)
Theorem post_member_kick_never_invites
    {St : Type} `{IStorage St}
    (id : string) (reason : JsValue) (env : ModerationEnv) (w : World St) :
  let r := post_member_kick id reason env w in
  (kickMemberSchema reason = None →
   r = ((400, "Invalid request body"), w)) ∧
  (∀ maxAge maxUses,
     In (CallInviteCreate maxAge maxUses) (discord r.2) →
     In (CallInviteCreate maxAge maxUses) (discord w)) ∧
  (∀ text,
     kickMemberSchema reason = Some text →
     (r.1.1 = 200 ↔
      (kickMember id "web-dashboard" text false env w).1 = Returns true)).
Proof.
  cbn zeta. unfold post_member_kick.
  split; [by intros ->|]. split.
  - intros maxAge maxUses.
    destruct (kickMemberSchema reason) as [text|]; [|done].
    pose proof (kickMember_without_invite id "web-dashboard" text env
                  w maxAge maxUses) as Hk.
    by destruct (kickMember id "web-dashboard" text false env w)
      as [[[|]|] w'].
  - intros text ->.
    destruct (kickMember id "web-dashboard" text false env w) as [[[|]|] w'];
      cbn; split; intros Hx; try done; discriminate Hx.
Qed.

(* ===================================================================== *)
(** * The dashboard: the cached member list *)
(* ===================================================================== *)


